(** * sendblue-go: a shallow embedding of [sendblue.go] and its properties.

    Go strings are byte sequences; they are modelled by [string], whose
    characters are the 8-bit [ascii] values.  The parts of the Go
    libraries the program calls ([unicode/utf8], [encoding/json],
    [net/http], [io/ioutil]) are modelled by executable definitions; the
    phone-number library and the HTTP transport are parameters. *)

From Stdlib Require Import ZArith NArith List Bool Ascii String Lia.
Import ListNotations.

Local Open Scope string_scope.
Local Open Scope Z_scope.
Local Set Warnings "-register-all".

(** ** Bytes *)

Definition byteZ (a : ascii) : Z := Z.of_N (N_of_ascii a).

(** Go's [byte(x)] conversion: the low eight bits. *)
Definition byte_of_Z (z : Z) : ascii := ascii_of_N (Z.to_N (Z.land z 0xFF)).

(** The double-quote character. *)
Definition dquote : ascii := "034"%char.

(** [q s] is [s] with every apostrophe replaced by a double quote, so that
    JSON texts can be written legibly. *)
Fixpoint q (s : string) : string :=
  match s with
  | EmptyString => EmptyString
  | String c t => String (if Ascii.eqb c "'"%char then dquote else c) (q t)
  end.

Fixpoint skipn_string (n : nat) (s : string) : string :=
  match n, s with
  | O, _ => s
  | S _, EmptyString => EmptyString
  | S k, String _ t => skipn_string k t
  end.

(** ** unicode/utf8 *)

Module utf8.

Definition RuneError : Z := 0xFFFD.
Definition RuneSelf : Z := 0x80.
Definition MaxRune : Z := 0x10FFFF.
Definition surrogateMin : Z := 0xD800.
Definition surrogateMax : Z := 0xDFFF.

Definition maskx : Z := 0x3F.
Definition mask2 : Z := 0x1F.
Definition mask3 : Z := 0x0F.
Definition mask4 : Z := 0x07.
Definition tx : Z := 0x80.
Definition t2 : Z := 0xC0.
Definition t3 : Z := 0xE0.
Definition t4 : Z := 0xF0.
Definition locb : Z := 0x80.
Definition hicb : Z := 0xBF.
Definition rune1Max : Z := 0x7F.
Definition rune2Max : Z := 0x7FF.
Definition rune3Max : Z := 0xFFFF.

(** What the table [first] says about a leading byte. *)
Inductive lead :=
| LeadASCII
| LeadInvalid
| LeadMulti (size : nat) (lo hi : Z).

Definition first (b : Z) : lead :=
  if b <? 0x80 then LeadASCII
  else if b <? 0xC2 then LeadInvalid
  else if b <? 0xE0 then LeadMulti 2 locb hicb
  else if b =? 0xE0 then LeadMulti 3 0xA0 hicb
  else if b <? 0xED then LeadMulti 3 locb hicb
  else if b =? 0xED then LeadMulti 3 locb 0x9F
  else if b <? 0xF0 then LeadMulti 3 locb hicb
  else if b =? 0xF0 then LeadMulti 4 0x90 hicb
  else if b <? 0xF4 then LeadMulti 4 locb hicb
  else if b =? 0xF4 then LeadMulti 4 locb 0x8F
  else LeadInvalid.

Definition outside (lo hi b : Z) : bool := (b <? lo) || (hi <? b).

(** [utf8.DecodeRuneInString]: the first rune of [s] and its width in
    bytes; [(RuneError, 1)] on an invalid encoding, [(RuneError, 0)] on
    the empty string. *)
Definition DecodeRuneInString (s : string) : Z * nat :=
  match s with
  | EmptyString => (RuneError, 0%nat)
  | String a0 r0 =>
    let s0 := byteZ a0 in
    match first s0 with
    | LeadASCII => (s0, 1%nat)
    | LeadInvalid => (RuneError, 1%nat)
    | LeadMulti sz lo hi =>
      if (String.length s <? sz)%nat then (RuneError, 1%nat)
      else
        match r0 with
        | EmptyString => (RuneError, 1%nat)
        | String a1 r1 =>
          let s1 := byteZ a1 in
          if outside lo hi s1 then (RuneError, 1%nat)
          else if (sz <=? 2)%nat then
            (Z.lor (Z.shiftl (Z.land s0 mask2) 6) (Z.land s1 maskx), 2%nat)
          else
            match r1 with
            | EmptyString => (RuneError, 1%nat)
            | String a2 r2 =>
              let s2 := byteZ a2 in
              if outside locb hicb s2 then (RuneError, 1%nat)
              else if (sz <=? 3)%nat then
                (Z.lor (Z.lor (Z.shiftl (Z.land s0 mask3) 12)
                              (Z.shiftl (Z.land s1 maskx) 6))
                       (Z.land s2 maskx), 3%nat)
              else
                match r2 with
                | EmptyString => (RuneError, 1%nat)
                | String a3 _ =>
                  let s3 := byteZ a3 in
                  if outside locb hicb s3 then (RuneError, 1%nat)
                  else
                    (Z.lor (Z.lor (Z.lor (Z.shiftl (Z.land s0 mask4) 18)
                                         (Z.shiftl (Z.land s1 maskx) 12))
                                  (Z.shiftl (Z.land s2 maskx) 6))
                           (Z.land s3 maskx), 4%nat)
                end
            end
        end
    end
  end.

(** [utf8.EncodeRune], returning the bytes written. *)
Definition EncodeRune (r : Z) : string :=
  let enc3 (r : Z) :=
    String (byte_of_Z (Z.lor t3 (Z.shiftr r 12)))
   (String (byte_of_Z (Z.lor tx (Z.land (Z.shiftr r 6) maskx)))
   (String (byte_of_Z (Z.lor tx (Z.land r maskx))) EmptyString)) in
  if (0 <=? r) && (r <=? rune1Max) then String (byte_of_Z r) EmptyString
  else if (0 <=? r) && (r <=? rune2Max) then
    String (byte_of_Z (Z.lor t2 (Z.shiftr r 6)))
   (String (byte_of_Z (Z.lor tx (Z.land r maskx))) EmptyString)
  else if (r <? 0) || (MaxRune <? r)
          || ((surrogateMin <=? r) && (r <=? surrogateMax)) then enc3 RuneError
  else if r <=? rune3Max then enc3 r
  else
    String (byte_of_Z (Z.lor t4 (Z.shiftr r 18)))
   (String (byte_of_Z (Z.lor tx (Z.land (Z.shiftr r 12) maskx)))
   (String (byte_of_Z (Z.lor tx (Z.land (Z.shiftr r 6) maskx)))
   (String (byte_of_Z (Z.lor tx (Z.land r maskx))) EmptyString))).

(** [utf8.ValidString]: no position of [s] at which a rune starts
    decodes to [(RuneError, 1)]. [skip] counts the bytes of the current
    rune that are still to be stepped over. *)
Fixpoint valid_from (skip : nat) (s : string) : bool :=
  match s with
  | EmptyString => true
  | String _ t =>
    match skip with
    | S k => valid_from k t
    | O =>
      let '(r, size) := DecodeRuneInString s in
      if (r =? RuneError) && (size =? 1)%nat then false
      else valid_from (size - 1) t
    end
  end.

Definition ValidString (s : string) : bool := valid_from 0 s.

End utf8.

(** ** Errors

    Go's [error] values, as far as the program builds or inspects them. *)

Inductive error :=
| errorString (msg : string)
    (** [errors.New(msg)], and [fmt.Errorf(msg)] without a wrapped cause *)
| wrapError (msg : string) (err : error)
    (** [fmt.Errorf(msg + ": %w", err)] *)
| SyntaxError
    (** [*json.SyntaxError] *)
| UnmarshalTypeError (Value Struct Field : string)
    (** [*json.UnmarshalTypeError]: the kind of the JSON value, and the
        struct and the field it was to be stored in *).

(** ** encoding/json *)

Module json.

Definition hex : string := "0123456789abcdef".

Definition hexdigit (n : Z) : ascii :=
  match String.get (Z.to_nat n) hex with
  | Some c => c
  | None => "0"%char
  end.

(** [htmlSafeSet]: the ASCII bytes that are written without escaping
    when HTML escaping is on, which it is for [json.Marshal]. *)
Definition htmlSafe (b : Z) : bool :=
  (0x20 <=? b) && (b <? 0x80)
  && negb (b =? 0x22) && negb (b =? 0x5C)
  && negb (b =? 0x26) && negb (b =? 0x3C) && negb (b =? 0x3E).

(** The escape written for an ASCII byte outside [htmlSafeSet]. (Before
    Go 1.22 backspace and form feed were written as [\u0008] and
    [\u000c]; the decoder reads both forms back to the same byte.) *)
Definition escape_ascii (b : Z) : string :=
  if (b =? 0x5C) || (b =? 0x22) then String "\"%char (String (byte_of_Z b) EmptyString)
  else if b =? 0x08 then "\b"
  else if b =? 0x0C then "\f"
  else if b =? 0x0A then "\n"
  else if b =? 0x0D then "\r"
  else if b =? 0x09 then "\t"
  else "\u00" ++ String (hexdigit (Z.shiftr b 4))
                (String (hexdigit (Z.land b 0xF)) EmptyString).

(** The escape of U+FFFD, written for an ill-formed byte. *)
Definition replacement_escape : string := "\u" ++ "fffd".

(** What the encoder does with the bytes that follow the one it has just
    examined and that belong to the same rune. *)
Inductive pending :=
| Copy (n : nat)
| Drop (n : nat).

(** The loop of [appendString]. Bytes of a well-formed rune are copied,
    an ill-formed byte becomes the escape of U+FFFD, and U+2028 and
    U+2029 are always escaped. *)
Fixpoint escape_from (p : pending) (s : string) : string :=
  match s with
  | EmptyString => EmptyString
  | String a t =>
    match p with
    | Copy (S k) => String a (escape_from (Copy k) t)
    | Drop (S k) => escape_from (Drop k) t
    | _ =>
      let b := byteZ a in
      if b <? utf8.RuneSelf then
        if htmlSafe b then String a (escape_from (Copy 0) t)
        else escape_ascii b ++ escape_from (Copy 0) t
      else
        let '(c, size) := utf8.DecodeRuneInString s in
        if (c =? utf8.RuneError) && (size =? 1)%nat then
          replacement_escape ++ escape_from (Copy 0) t
        else if (c =? 0x2028) || (c =? 0x2029) then
          "\u202" ++ String (hexdigit (Z.land c 0xF)) (escape_from (Drop (size - 1)) t)
        else String a (escape_from (Copy (size - 1)) t)
    end
  end.

(** [appendString(dst, src, escapeHTML = true)] on an empty [dst]. *)
Definition appendString (src : string) : string :=
  String dquote (escape_from (Copy 0) src ++ String dquote EmptyString).

(** *** Decoding *)

Inductive value :=
| Null
| Bool (b : bool)
| Number (lit : string)
| Str (s : string)
| Array (elems : list value)
| Object (members : list (string * value)).

Definition isSpace (c : ascii) : bool :=
  let b := byteZ c in
  (b =? 0x20) || (b =? 0x09) || (b =? 0x0D) || (b =? 0x0A).

Fixpoint skip_ws (s : string) : string :=
  match s with
  | String c t => if isSpace c then skip_ws t else s
  | EmptyString => s
  end.

Definition isDigit (c : ascii) : bool :=
  let b := byteZ c in (0x30 <=? b) && (b <=? 0x39).

Definition isHex (c : ascii) : bool :=
  let b := byteZ c in
  ((0x30 <=? b) && (b <=? 0x39)) || ((0x61 <=? b) && (b <=? 0x66))
  || ((0x41 <=? b) && (b <=? 0x46)).

Definition hexval (c : ascii) : Z :=
  let b := byteZ c in
  if (0x30 <=? b) && (b <=? 0x39) then b - 0x30
  else if (0x61 <=? b) && (b <=? 0x66) then b - 0x61 + 10
  else if (0x41 <=? b) && (b <=? 0x46) then b - 0x41 + 10
  else -1.

Definition cons_fst (c : ascii) (r : option (string * string)) :=
  match r with
  | Some (lit, rest) => Some (String c lit, rest)
  | None => None
  end.

(** The characters that may follow a backslash, [u] apart. *)
Definition simple_escape (e : ascii) : bool :=
  existsb (Ascii.eqb e) ["b"; "f"; "n"; "r"; "t"; "\"; "/"; dquote]%char.

(** The scanner inside a string literal ([stateInString] and the escape
    states): the bytes up to the closing quote, and what follows it. *)
Fixpoint scan_string (s : string) : option (string * string) :=
  match s with
  | EmptyString => None
  | String c t =>
    if Ascii.eqb c dquote then Some (EmptyString, t)
    else if Ascii.eqb c "\"%char then
      match t with
      | EmptyString => None
      | String e t1 =>
        if simple_escape e then cons_fst c (cons_fst e (scan_string t1))
        else if Ascii.eqb e "u"%char then
          match t1 with
          | String h1 (String h2 (String h3 (String h4 t5))) =>
            if isHex h1 && isHex h2 && isHex h3 && isHex h4 then
              cons_fst c (cons_fst e (cons_fst h1 (cons_fst h2
                (cons_fst h3 (cons_fst h4 (scan_string t5))))))
            else None
          | _ => None
          end
        else None
      end
    else if byteZ c <? 0x20 then None
    else cons_fst c (scan_string t)
  end.

(** [getu4]: the value of a [\uXXXX] escape at the head of [s], or -1. *)
Definition getu4 (s : string) : Z :=
  match s with
  | String b (String u (String h1 (String h2 (String h3 (String h4 _))))) =>
    if Ascii.eqb b "\"%char && Ascii.eqb u "u"%char
       && isHex h1 && isHex h2 && isHex h3 && isHex h4
    then ((hexval h1 * 16 + hexval h2) * 16 + hexval h3) * 16 + hexval h4
    else -1
  | _ => -1
  end.

(** [utf16.IsSurrogate] and [utf16.DecodeRune]. *)
Definition IsSurrogate (r : Z) : bool := (0xD800 <=? r) && (r <? 0xE000).

Definition utf16_DecodeRune (r1 r2 : Z) : Z :=
  if (0xD800 <=? r1) && (r1 <? 0xDC00) && (0xDC00 <=? r2) && (r2 <? 0xE000)
  then Z.lor (Z.shiftl (r1 - 0xD800) 10) (r2 - 0xDC00) + 0x10000
  else utf8.RuneError.

Definition app_opt (pre : string) (r : option string) : option string :=
  match r with
  | Some t => Some (pre ++ t)
  | None => None
  end.

(** [unquoteBytes] on the bytes between the quotes. [skip] counts the
    bytes of the current escape or rune still to be stepped over. *)
Fixpoint unquote_from (skip : nat) (s : string) : option string :=
  match s with
  | EmptyString => Some EmptyString
  | String c t =>
    match skip with
    | S k => unquote_from k t
    | O =>
      if Ascii.eqb c "\"%char then
        match t with
        | EmptyString => None
        | String e _ =>
          if existsb (Ascii.eqb e) ["\"; "/"; "'"; dquote]%char then
            app_opt (String e EmptyString) (unquote_from 1 t)
          else if Ascii.eqb e "b"%char then
            app_opt (String "008" EmptyString) (unquote_from 1 t)
          else if Ascii.eqb e "f"%char then
            app_opt (String "012" EmptyString) (unquote_from 1 t)
          else if Ascii.eqb e "n"%char then
            app_opt (String "010" EmptyString) (unquote_from 1 t)
          else if Ascii.eqb e "r"%char then
            app_opt (String "013" EmptyString) (unquote_from 1 t)
          else if Ascii.eqb e "t"%char then
            app_opt (String "009" EmptyString) (unquote_from 1 t)
          else if Ascii.eqb e "u"%char then
            let rr := getu4 s in
            if rr <? 0 then None
            else if IsSurrogate rr then
              let dec := utf16_DecodeRune rr (getu4 (skipn_string 6 s)) in
              if negb (dec =? utf8.RuneError) then
                app_opt (utf8.EncodeRune dec) (unquote_from 11 t)
              else app_opt (utf8.EncodeRune utf8.RuneError) (unquote_from 5 t)
            else app_opt (utf8.EncodeRune rr) (unquote_from 5 t)
          else None
        end
      else if Ascii.eqb c dquote || (byteZ c <? 0x20) then None
      else if byteZ c <? utf8.RuneSelf then
        app_opt (String c EmptyString) (unquote_from 0 t)
      else
        let '(rr, size) := utf8.DecodeRuneInString s in
        app_opt (utf8.EncodeRune rr) (unquote_from (size - 1) t)
    end
  end.

Definition unquote (raw : string) : option string := unquote_from 0 raw.

(** *** The scanner and the decoder, as a recursive-descent parser

    [json.Unmarshal] checks the whole input with its scanner and then
    decodes it with the same scanner; one parser that builds the value
    stands for both passes. *)

Fixpoint span_digits (s : string) : string * string :=
  match s with
  | String c t =>
    if isDigit c then let '(ds, rest) := span_digits t in (String c ds, rest)
    else (EmptyString, s)
  | EmptyString => (EmptyString, EmptyString)
  end.

(** The number states of the scanner. [scan_int] is [state0] and
    [state1]: a zero, or a digit from one to nine and more digits. *)
Definition scan_int (s : string) : option (string * string) :=
  match s with
  | String c t =>
    if Ascii.eqb c "0"%char then Some ("0", t)
    else if isDigit c then
      let '(ds, rest) := span_digits t in Some (String c ds, rest)
    else None
  | EmptyString => None
  end.

(** [stateDot] and [stateDot0]: a point must be followed by a digit. *)
Definition scan_frac (s : string) : option (string * string) :=
  match s with
  | String c t =>
    if Ascii.eqb c "."%char then
      match span_digits t with
      | (EmptyString, _) => None
      | (ds, rest) => Some (String c ds, rest)
      end
    else Some (EmptyString, s)
  | EmptyString => Some (EmptyString, s)
  end.

(** [stateE], [stateESign] and [stateE0]: an exponent mark, a sign if
    any, and at least one digit. *)
Definition scan_exp (s : string) : option (string * string) :=
  match s with
  | String c t =>
    if Ascii.eqb c "e"%char || Ascii.eqb c "E"%char then
      let '(sg, t1) :=
        match t with
        | String g t' =>
          if Ascii.eqb g "+"%char || Ascii.eqb g "-"%char
          then (String g EmptyString, t') else (EmptyString, t)
        | EmptyString => (EmptyString, t)
        end in
      match span_digits t1 with
      | (EmptyString, _) => None
      | (ds, rest) => Some (String c (sg ++ ds), rest)
      end
    else Some (EmptyString, s)
  | EmptyString => Some (EmptyString, s)
  end.

(** A number ([stateNeg] first): the literal and what follows it. *)
Definition scan_number (s : string) : option (string * string) :=
  let '(sign, s1) :=
    match s with
    | String c t => if Ascii.eqb c "-"%char then ("-", t) else (EmptyString, s)
    | EmptyString => (EmptyString, s)
    end in
  match scan_int s1 with
  | None => None
  | Some (ip, s2) =>
    match scan_frac s2 with
    | None => None
    | Some (fp, s3) =>
      match scan_exp s3 with
      | None => None
      | Some (ep, s4) => Some (sign ++ ip ++ fp ++ ep, s4)
      end
    end
  end.

(** [strip_prefix p s]: what follows [p] in [s], if [s] starts with [p]. *)
Fixpoint strip_prefix (p s : string) : option string :=
  match p, s with
  | EmptyString, _ => Some s
  | String a p', String b s' => if Ascii.eqb a b then strip_prefix p' s' else None
  | String _ _, EmptyString => None
  end.

(** The outcome of parsing a prefix of the input. *)
Inductive res (A : Type) :=
| Ok (a : A) (rest : string)
| Bad
| OutOfFuel.
Arguments Ok {A} a rest.
Arguments Bad {A}.
Arguments OutOfFuel {A}.

(** The scanner refuses to nest arrays and objects deeper than this. *)
Definition maxNestingDepth : N := 10000.

(** A string literal after its opening quote. What the scanner accepts,
    [unquote] converts ([scanned_literal_unquotes] below). *)
Definition parse_string (t : string) : res string :=
  match scan_string t with
  | Some (raw, rest) =>
    match unquote raw with
    | Some u => Ok u rest
    | None => Bad
    end
  | None => Bad
  end.

(** [parse_value fuel depth s] reads one JSON value at the head of [s],
    after white space; [depth] is the number of arrays and objects that
    are open. [parse_elems] reads the elements of an array up to its
    bracket, [parse_members] the members of an object up to its brace. *)
Fixpoint parse_value (fuel : nat) (depth : N) (s : string) {struct fuel}
  : res value :=
  match fuel with
  | O => OutOfFuel
  | S f =>
    match skip_ws s with
    | EmptyString => Bad
    | String c t =>
      if Ascii.eqb c "{"%char then
        if (depth <? maxNestingDepth)%N then
          match skip_ws t with
          | String c' t' =>
            if Ascii.eqb c' "}"%char then Ok (Object []) t'
            else parse_members f (depth + 1)%N (String c' t') []
          | EmptyString => Bad
          end
        else Bad
      else if Ascii.eqb c "["%char then
        if (depth <? maxNestingDepth)%N then
          match skip_ws t with
          | String c' t' =>
            if Ascii.eqb c' "]"%char then Ok (Array []) t'
            else parse_elems f (depth + 1)%N (String c' t') []
          | EmptyString => Bad
          end
        else Bad
      else if Ascii.eqb c dquote then
        match parse_string t with
        | Ok u rest => Ok (Str u) rest
        | _ => Bad
        end
      else if Ascii.eqb c "-"%char || isDigit c then
        match scan_number (String c t) with
        | Some (lit, rest) => Ok (Number lit) rest
        | None => Bad
        end
      else if Ascii.eqb c "t"%char then
        match strip_prefix "rue" t with
        | Some rest => Ok (Bool true) rest
        | None => Bad
        end
      else if Ascii.eqb c "f"%char then
        match strip_prefix "alse" t with
        | Some rest => Ok (Bool false) rest
        | None => Bad
        end
      else if Ascii.eqb c "n"%char then
        match strip_prefix "ull" t with
        | Some rest => Ok Null rest
        | None => Bad
        end
      else Bad
    end
  end

with parse_elems (fuel : nat) (depth : N) (s : string) (acc : list value)
  {struct fuel} : res value :=
  match fuel with
  | O => OutOfFuel
  | S f =>
    match parse_value f depth s with
    | Ok v rest =>
      match skip_ws rest with
      | String c t =>
        if Ascii.eqb c ","%char then parse_elems f depth t (v :: acc)
        else if Ascii.eqb c "]"%char then Ok (Array (rev (v :: acc))) t
        else Bad
      | EmptyString => Bad
      end
    | Bad => Bad
    | OutOfFuel => OutOfFuel
    end
  end

with parse_members (fuel : nat) (depth : N) (s : string)
  (acc : list (string * value)) {struct fuel} : res value :=
  match fuel with
  | O => OutOfFuel
  | S f =>
    match skip_ws s with
    | String c t =>
      if Ascii.eqb c dquote then
        match parse_string t with
        | Ok key rest =>
          match skip_ws rest with
          | String c1 t1 =>
            if Ascii.eqb c1 ":"%char then
              match parse_value f depth t1 with
              | Ok v rest2 =>
                match skip_ws rest2 with
                | String c2 t2 =>
                  if Ascii.eqb c2 ","%char then
                    parse_members f depth t2 ((key, v) :: acc)
                  else if Ascii.eqb c2 "}"%char then
                    Ok (Object (rev ((key, v) :: acc))) t2
                  else Bad
                | EmptyString => Bad
                end
              | Bad => Bad
              | OutOfFuel => OutOfFuel
              end
            else Bad
          | EmptyString => Bad
          end
        | _ => Bad
        end
      else Bad
    | EmptyString => Bad
    end
  end.

(** A whole document: one value, white space around it, nothing else.
    Two units of fuel for every byte of the input are enough
    ([parse_value_fuel] below). *)
Definition parse (data : string) : option value :=
  match parse_value (S (2 * String.length data)) 0 data with
  | Ok v rest =>
    match skip_ws rest with
    | EmptyString => Some v
    | String _ _ => None
    end
  | _ => None
  end.

(** [checkValid]. *)
Definition Valid (data : string) : bool :=
  match parse data with
  | Some _ => true
  | None => false
  end.

(** *** Struct fields *)

Definition caseMask : Z := 0xDF.
Definition kelvin : Z := 0x212A.
Definition smallLongEss : Z := 0x17F.

(** [equalFoldRight s t]: [t] equals the ASCII name [s] under Unicode
    case folding; the only runes outside ASCII that fold to ASCII letters
    are the Kelvin sign and the long s. (For a name without [k] or [s]
    the decoder picks a comparison of ASCII letters only, which agrees
    with this one on such names.) *)
Fixpoint equalFoldRight (s t : string) : bool :=
  match s with
  | EmptyString =>
    match t with
    | EmptyString => true
    | String _ _ => false
    end
  | String sa s' =>
    match t with
    | EmptyString => false
    | String ta t' =>
      let sb := byteZ sa in
      let tb := byteZ ta in
      if tb <? utf8.RuneSelf then
        if sb =? tb then equalFoldRight s' t'
        else
          let sbUpper := Z.land sb caseMask in
          if (0x41 <=? sbUpper) && (sbUpper <=? 0x5A)
             && (sbUpper =? Z.land tb caseMask)
          then equalFoldRight s' t'
          else false
      else
        let '(tr, size) := utf8.DecodeRuneInString t in
        if ((sb =? 0x73) || (sb =? 0x53)) && (tr =? smallLongEss) then
          equalFoldRight s' (skipn_string size t)
        else if ((sb =? 0x6B) || (sb =? 0x4B)) && (tr =? kelvin) then
          equalFoldRight s' (skipn_string size t)
        else false
    end
  end.

(** The field a key of an object is stored in: the field with exactly
    that name, else the first field whose name matches under folding. *)
Definition find_field (names : list string) (key : string) : option string :=
  match find (String.eqb key) names with
  | Some n => Some n
  | None => find (fun n => equalFoldRight n key) names
  end.

(** A Go struct all of whose fields are strings with a [json] tag. *)
Class Struct (T : Type) := {
  type_name : string;
  field_names : list string;
  get_field : string -> T -> string;
  set_field : string -> string -> T -> T
}.

(** The name the decoder gives the kind of a value in its errors. *)
Definition kind_of (v : value) : string :=
  match v with
  | Null => "null"
  | Bool _ => "bool"
  | Number _ => "number"
  | Str _ => "string"
  | Array _ => "array"
  | Object _ => "object"
  end.

(** [saveError]: only the first error is kept. *)
Definition saveError (saved : option error) (e : error) : option error :=
  match saved with
  | Some _ => saved
  | None => Some e
  end.

Section Decode.
Context {T : Type} `{Struct T}.

(** One member of an object decoded into a struct: a string is stored in
    the field the key names, [null] leaves it alone, any other value is a
    type error; a key that names no field is skipped. *)
Definition store_member (st : T * option error) (m : string * value)
  : T * option error :=
  let '(v, saved) := st in
  let '(key, x) := m in
  match find_field field_names key with
  | None => st
  | Some name =>
    match x with
    | Str s => (set_field name s v, saved)
    | Null => st
    | _ =>
      (v, saveError saved (UnmarshalTypeError (kind_of x) type_name name))
    end
  end.

(** [json.Unmarshal(data, &v)] where [v] is such a struct: the struct
    after the call, and the error returned. *)
Definition Unmarshal (data : string) (v : T) : T * option error :=
  match parse data with
  | None => (v, Some SyntaxError)
  | Some Null => (v, None)
  | Some (Object ms) => fold_left store_member ms (v, None)
  | Some x =>
    (v, Some (UnmarshalTypeError (kind_of x) EmptyString EmptyString))
  end.

(** [json.Marshal(v)]: the fields in declaration order. It has no way to
    fail on a struct of strings. *)
Fixpoint marshal_fields (names : list string) (v : T) : string :=
  match names with
  | [] => EmptyString
  | [n] => appendString n ++ ":" ++ appendString (get_field n v)
  | n :: rest =>
    appendString n ++ ":" ++ appendString (get_field n v) ++ ","
    ++ marshal_fields rest v
  end.

Definition Marshal (v : T) : string * option error :=
  ("{" ++ marshal_fields field_names v ++ "}", None).

End Decode.

End json.

(** ** io: streams

    An [io.ReadCloser] is given by what reading it to the end yields: the
    bytes read, and the error that ended the reading, if it was not the
    end of the stream. [rc_id] tells streams apart. *)

Record ReadCloser := {
  rc_id : nat;
  rc_data : string;
  rc_err : option error
}.

(** ** net/http *)

Module http.

(** [httpguts.IsTokenRune] on a byte; also [validHeaderFieldByte]. *)
Definition isToken (c : ascii) : bool :=
  let b := byteZ c in
  ((0x30 <=? b) && (b <=? 0x39))
  || ((0x41 <=? b) && (b <=? 0x5A))
  || ((0x61 <=? b) && (b <=? 0x7A))
  || existsb (Ascii.eqb c)
       ["!"; "#"; "$"; "%"; "&"; "'"; "*"; "+"; "-"; "."; "^"; "_"; "`";
        "|"; "~"]%char.

Fixpoint all_bytes (f : ascii -> bool) (s : string) : bool :=
  match s with
  | EmptyString => true
  | String c t => f c && all_bytes f t
  end.

Definition validMethod (method : string) : bool :=
  negb (String.eqb method EmptyString) && all_bytes isToken method.

(** The loop of [canonicalMIMEHeaderKey]: a letter is upper case at the
    start and after a dash, lower case elsewhere. *)
Fixpoint canon (upper : bool) (s : string) : string :=
  match s with
  | EmptyString => EmptyString
  | String c t =>
    let b := byteZ c in
    let c' :=
      if upper && (0x61 <=? b) && (b <=? 0x7A) then byte_of_Z (b - 0x20)
      else if negb upper && (0x41 <=? b) && (b <=? 0x5A) then byte_of_Z (b + 0x20)
      else c in
    String c' (canon (Ascii.eqb c' "-"%char) t)
  end.

(** [textproto.CanonicalMIMEHeaderKey]: a key with a byte that is not a
    token byte is left as it is. *)
Definition CanonicalMIMEHeaderKey (s : string) : string :=
  if all_bytes isToken s then canon true s else s.

(** [http.Header] is [map[string][]string]. *)
Definition Header := list (string * list string).

Definition Header_Set (h : Header) (key value : string) : Header :=
  let k := CanonicalMIMEHeaderKey key in
  (k, [value]) :: filter (fun kv => negb (String.eqb (fst kv) k)) h.

Definition Header_Get (h : Header) (key : string) : string :=
  match find (fun kv => String.eqb (fst kv) (CanonicalMIMEHeaderKey key)) h with
  | Some (_, v :: _) => v
  | _ => EmptyString
  end.

(** The fields of [http.Request] the program sets; the body is the
    content of the buffer it is read from. *)
Record Request := {
  Method : string;
  URL : string;
  Headers : Header;
  Body : string
}.

Definition set_header (req : Request) (key value : string) : Request :=
  {| Method := Method req; URL := URL req;
     Headers := Header_Set (Headers req) key value; Body := Body req |}.

Record Response := {
  StatusCode : Z;
  RespBody : ReadCloser
}.

(** [stringContainsCTLByte], the first thing [url.Parse] rejects. *)
Definition isCTL (c : ascii) : bool :=
  let b := byteZ c in (b <? 0x20) || (b =? 0x7F).

(** [http.NewRequest(method, url, body)]. It fails on a method that is
    not a token and on a URL that does not parse; of [url.Parse] the
    rejection of control characters is modelled, which is all that can
    concern the constant URL the program passes. *)
Definition NewRequest (method url body : string) : Request + error :=
  let method := if String.eqb method EmptyString then "GET" else method in
  if negb (validMethod method) then
    inr (errorString ("net/http: invalid method " ++ method))
  else if negb (all_bytes (fun c => negb (isCTL c)) url) then
    inr (errorString "net/url: invalid control character in URL")
  else
    inl {| Method := method; URL := url; Headers := []; Body := body |}.

End http.

(** ** github.com/ttacon/libphonenumber

    The phone-number library is a parameter of the development. *)

Module libphonenumber.

Inductive PhoneNumberFormat := E164 | INTERNATIONAL | NATIONAL | RFC3966.

Class Lib := {
  PhoneNumber : Type;
  (** [Parse(numberToParse, defaultRegion)] *)
  Parse : string -> string -> PhoneNumber + error;
  (** [Format(number, numberFormat)] *)
  Format : PhoneNumber -> PhoneNumberFormat -> string
}.

End libphonenumber.

(** ** package sendblue *)

(** A [Message] is sent or received from Sendblue. *)
Record Message := {
  Number : string;
  Content : string
}.

(** A [MessageResponse] is returned from Sendblue after a message request
    was sent. *)
Record MessageResponse := {
  Status : string;
  ErrorCode : string;
  FromNumber : string;
  MessageHandle : string
}.

#[export] Instance Message_Struct : json.Struct Message := {|
  json.type_name := "Message";
  json.field_names := ["number"; "content"];
  json.get_field n m :=
    if String.eqb n "number" then Number m
    else if String.eqb n "content" then Content m
    else EmptyString;
  json.set_field n x m :=
    if String.eqb n "number" then {| Number := x; Content := Content m |}
    else if String.eqb n "content" then {| Number := Number m; Content := x |}
    else m
|}.

#[export] Instance MessageResponse_Struct : json.Struct MessageResponse := {|
  json.type_name := "MessageResponse";
  json.field_names := ["status"; "error_code"; "from_number"; "message_handle"];
  json.get_field n r :=
    if String.eqb n "status" then Status r
    else if String.eqb n "error_code" then ErrorCode r
    else if String.eqb n "from_number" then FromNumber r
    else if String.eqb n "message_handle" then MessageHandle r
    else EmptyString;
  json.set_field n x r :=
    if String.eqb n "status" then
      {| Status := x; ErrorCode := ErrorCode r;
         FromNumber := FromNumber r; MessageHandle := MessageHandle r |}
    else if String.eqb n "error_code" then
      {| Status := Status r; ErrorCode := x;
         FromNumber := FromNumber r; MessageHandle := MessageHandle r |}
    else if String.eqb n "from_number" then
      {| Status := Status r; ErrorCode := ErrorCode r;
         FromNumber := x; MessageHandle := MessageHandle r |}
    else if String.eqb n "message_handle" then
      {| Status := Status r; ErrorCode := ErrorCode r;
         FromNumber := FromNumber r; MessageHandle := x |}
    else r
|}.

(** [ErrParse] is returned when we are unable to parse a phone number
    into the proper format. *)
Definition ErrParse : error :=
  errorString "sendblue: failed to parse phone number".

(** The current endpoint. *)
Definition endpoint : string :=
  "https://bluetexts-272923.uc.r.appspot.com/api/send-message".

Section Sendblue.

Context {phone : libphonenumber.Lib}.

(** [Net] is the state of whatever the HTTP transport talks to. *)
Context {Net : Type}.

(** The method [Do] of [http.Client]: what performing a request returns
    and does to the network. *)
Definition Transport := http.Request -> Net -> (http.Response + error) * Net.

(** A [Client] is used to send API requests to Sendblue. [HTTPClient] is
    the field [Client] of the Go struct. *)
Record Client := {
  APIKey : string;
  SecretKey : string;
  HTTPClient : Transport
}.

(** [NewCustomClient] creates a new client from a key pair and a custom
    client. *)
Definition NewCustomClient (client : Transport) (api secret : string) : Client :=
  {| APIKey := api; SecretKey := secret; HTTPClient := client |}.

(** [NewDefaultClient] creates a new client from a key pair, using the
    default [http.Client] implementation, here [default]. *)
Definition NewDefaultClient (default : Transport) (api secret : string)
  : Client :=
  NewCustomClient default api secret.

(** What the program does to the outside, in order. *)
Inductive event :=
| EvDo (req : http.Request)
| EvReadAll (r : ReadCloser)
| EvClose (r : ReadCloser).

(** The state a call runs in: the [Client] the method is called on, the
    network, and the events so far. *)
Record State := {
  receiver : Client;
  net : Net;
  trace : list event
}.

Definition M (A : Type) : Type := State -> A * State.

Definition ret {A} (a : A) : M A := fun st => (a, st).

Definition bind {A B} (m : M A) (k : A -> M B) : M B :=
  fun st => let '(a, st') := m st in k a st'.

Notation "x <- m ;; k" := (bind m (fun x => k))
  (at level 61, m at next level, right associativity).
Notation "' p <- m ;; k" := (bind m (fun x => let 'p := x in k))
  (at level 61, p pattern, m at next level, right associativity).

(** Reading a field of the receiver. *)
Definition field {A} (f : Client -> A) : M A := fun st => (f (receiver st), st).

Definition emit (e : event) : M unit :=
  fun st => (tt, {| receiver := receiver st; net := net st;
                    trace := trace st ++ [e] |}).

(** [c.Client.Do(req)]. *)
Definition Do (tr : Transport) (req : http.Request) : M (http.Response + error) :=
  fun st =>
    let '(r, n) := tr req (net st) in
    (r, {| receiver := receiver st; net := n; trace := trace st ++ [EvDo req] |}).

(** [ioutil.ReadAll(r)]. *)
Definition ReadAll (r : ReadCloser) : M (string * option error) :=
  _ <- emit (EvReadAll r) ;; ret (rc_data r, rc_err r).

(** [r.Close()]. *)
Definition Close (r : ReadCloser) : M unit := emit (EvClose r).

(** [defer d]: [d] runs when the rest of the function has returned. *)
Definition defer {A} (d : M unit) (rest : M A) : M A :=
  a <- rest ;; _ <- d ;; ret a.

(** [SendMessage] sends a message to a phone number [to] with a given
    [body]. Returns the phone number that the message was sent from and
    an error, if any. *)
Definition SendMessage (to body : string) : M (string * option error) :=
  match libphonenumber.Parse to "US" with
  | inr _ => ret (EmptyString, Some ErrParse)
  | inl num =>
    match json.Marshal {| Number := libphonenumber.Format num libphonenumber.E164;
                          Content := body |} with
    | (_, Some err) =>
      ret (EmptyString, Some (wrapError "failed to marshal request body" err))
    | (buf, None) =>
      match http.NewRequest "POST" endpoint buf with
      | inr err =>
        ret (EmptyString, Some (wrapError "failed to create post request" err))
      | inl req =>
        key <- field APIKey ;;
        let req := http.set_header req "sb-api-key-id" key in
        secret <- field SecretKey ;;
        let req := http.set_header req "sb-api-secret-key" secret in
        let req := http.set_header req "Content-Type" "application/json" in
        client <- field HTTPClient ;;
        r <- Do client req ;;
        match r with
        | inr err =>
          ret (EmptyString, Some (wrapError "failed to perform request" err))
        | inl resp =>
          defer (Close (http.RespBody resp))
            ('(rbody, err) <- ReadAll (http.RespBody resp) ;;
             match err with
             | Some err =>
               ret (EmptyString,
                    Some (wrapError "failed to read response body" err))
             | None =>
               let mresp := {| Status := EmptyString; ErrorCode := EmptyString;
                               FromNumber := EmptyString;
                               MessageHandle := EmptyString |} in
               match json.Unmarshal rbody mresp with
               | (_, Some err) =>
                 ret (EmptyString,
                      Some (wrapError "failed to unmarshal response body" err))
               | (mresp, None) =>
                 if String.eqb (Status mresp) "ERROR" then
                   ret (EmptyString,
                        Some (errorString "failed to send, returned error"))
                 else ret (FromNumber mresp, None)
               end
             end)
        end
      end
    end
  end.

(** [ReadWebhook] is a method used to process an incoming webhook from
    Sendblue. *)
Definition ReadWebhook (r : ReadCloser) : M (option Message * option error) :=
  '(data, err) <- ReadAll r ;;
  match err with
  | Some err => ret (None, Some (wrapError "failed to read request body" err))
  | None =>
    defer (Close r)
      (let msg := {| Number := EmptyString; Content := EmptyString |} in
       match json.Unmarshal data msg with
       | (_, Some err) =>
         ret (None, Some (wrapError "failed to unmarshal into message" err))
       | (msg, None) => ret (Some msg, None)
       end)
  end.

End Sendblue.

(** ** Vocabulary of the statements *)

Section Vocabulary.

Context {phone : libphonenumber.Lib} {Net : Type}.

(** The requests handed to the transport, in order. *)
Fixpoint requests (tr : list event) : list http.Request :=
  match tr with
  | [] => []
  | EvDo req :: rest => req :: requests rest
  | _ :: rest => requests rest
  end.

(** The streams closed, in order. *)
Fixpoint closed (tr : list event) : list ReadCloser :=
  match tr with
  | [] => []
  | EvClose r :: rest => r :: closed rest
  | _ :: rest => closed rest
  end.

(** A transport that answers every request with a response whose body
    reads [rbody] to the end. *)
Definition responds_with (tr : @Transport Net) (rbody : string) : Prop :=
  forall req n, exists resp n',
    tr req n = (inl resp, n')
    /\ rc_data (http.RespBody resp) = rbody
    /\ rc_err (http.RespBody resp) = None.

(** The request [SendMessage] builds for a parsed number. *)
Definition request_for (c : @Client Net) (num : libphonenumber.PhoneNumber)
  (body : string) : http.Request :=
  {| http.Method := "POST";
     http.URL := endpoint;
     http.Headers :=
       [("Content-Type", ["application/json"]);
        ("Sb-Api-Secret-Key", [SecretKey c]);
        ("Sb-Api-Key-Id", [APIKey c])];
     http.Body :=
       fst (json.Marshal
              {| Number := libphonenumber.Format num libphonenumber.E164;
                 Content := body |}) |}.

(** The state after [evs] have happened and the network has become [n]. *)
Definition add_events (st : @State Net) (n : Net) (evs : list event)
  : @State Net :=
  {| receiver := receiver st; net := n; trace := trace st ++ evs |}.

Definition zero_response : MessageResponse :=
  {| Status := EmptyString; ErrorCode := EmptyString;
     FromNumber := EmptyString; MessageHandle := EmptyString |}.

Definition zero_message : Message :=
  {| Number := EmptyString; Content := EmptyString |}.

(** What [SendMessage] returns once the response body [rbody] is read. *)
Definition interpret (rbody : string) : string * option error :=
  match json.Unmarshal rbody zero_response with
  | (_, Some err) =>
    (EmptyString, Some (wrapError "failed to unmarshal response body" err))
  | (mresp, None) =>
    if String.eqb (Status mresp) "ERROR" then
      (EmptyString, Some (errorString "failed to send, returned error"))
    else (FromNumber mresp, None)
  end.

End Vocabulary.

(** The error [SendMessage] returns when the remote service rejects. *)
Definition send_failed : error := errorString "failed to send, returned error".

(** Whether an error is the one [SendMessage] returns when the response
    body does not decode. *)
Definition is_response_parse_error (e : option error) : bool :=
  match e with
  | Some (wrapError msg _) => String.eqb msg "failed to unmarshal response body"
  | _ => false
  end.

(** A member the decoder cannot store: its key names a field and its
    value is neither a string nor [null]. *)
Definition ill_typed {T} `{json.Struct T} (m : string * json.value) : bool :=
  match json.find_field json.field_names (fst m) with
  | None => false
  | Some _ =>
    match snd m with
    | json.Str _ | json.Null => false
    | _ => true
    end
  end.

(** The documents [json.Unmarshal] refuses to decode into a struct of
    type [T]: text that is not JSON, a value that is neither an object
    nor [null], an object with an ill-typed member. *)
Definition rejected (T : Type) `{json.Struct T} (data : string) : bool :=
  match json.parse data with
  | None => true
  | Some json.Null => false
  | Some (json.Object ms) => existsb ill_typed ms
  | Some _ => true
  end.

(** [stored name ms]: the string the decoder leaves in the field [name]
    of a struct once it has gone through the members [ms] of an object,
    in order: that of the last member whose key names the field and whose
    value is a string. [None] when there is no such member: the field
    then keeps the value it had before the call. *)
Fixpoint stored {T} `{json.Struct T} (name : string)
  (ms : list (string * json.value)) : option string :=
  match ms with
  | [] => None
  | (k, x) :: rest =>
    match stored name rest with
    | Some s => Some s
    | None =>
      match json.find_field json.field_names k, x with
      | Some n, json.Str s => if String.eqb n name then Some s else None
      | _, _ => None
      end
    end
  end.

(** *** The response shape of the specification

    Section 6 of the specification gives the response body as a JSON
    object with the four members [status], [error_code], [from_number]
    and [message_handle], each a string. *)

Fixpoint member (key : string) (ms : list (string * json.value))
  : option json.value :=
  match ms with
  | [] => None
  | (k, v) :: rest =>
    match member key rest with
    | Some v' => Some v'
    | None => if String.eqb k key then Some v else None
    end
  end.

Definition is_string (v : option json.value) : bool :=
  match v with
  | Some (json.Str _) => true
  | _ => false
  end.

Definition spec_response_shape (v : json.value) : bool :=
  match v with
  | json.Object ms =>
    is_string (member "status" ms) && is_string (member "error_code" ms)
    && is_string (member "from_number" ms)
    && is_string (member "message_handle" ms)
  | _ => false
  end.

(** *** The parser

    [fine enough r s]: the result [r] of parsing [s] is not for want of
    fuel when [enough] holds, and what it leaves is shorter than [s]. *)

Definition fine {A} (enough : Prop) (r : json.res A) (s : string) : Prop :=
  (enough -> r <> json.OutOfFuel)
  /\ forall v rest, r = json.Ok v rest ->
       (String.length rest < String.length s)%nat.

(** The literals the scanner accepts, without their quotes. *)
Inductive literal : string -> Prop :=
| lit_end : literal EmptyString
| lit_plain (c : ascii) (t : string) :
    Ascii.eqb c dquote = false -> Ascii.eqb c "\"%char = false ->
    (byteZ c <? 0x20) = false ->
    literal t -> literal (String c t)
| lit_esc (e : ascii) (t : string) :
    json.simple_escape e = true ->
    literal t -> literal (String "\" (String e t))
| lit_u (h1 h2 h3 h4 : ascii) (t : string) :
    json.isHex h1 && json.isHex h2 && json.isHex h3 && json.isHex h4 = true ->
    literal t ->
    literal (String "\" (String "u" (String h1 (String h2 (String h3
               (String h4 t)))))).

(** *** Well-formed runes

    [wellformed pre c]: the bytes [pre] are the UTF-8 encoding of the
    rune [c], of two, three or four bytes; the rune is written as the
    number its bytes spell. *)

Definition cont (a : ascii) : Prop := 0x80 <= byteZ a <= 0xBF.

Inductive wellformed : string -> Z -> Prop :=
| wf2 (a0 a1 : ascii) :
    0xC2 <= byteZ a0 <= 0xDF -> cont a1 ->
    wellformed (String a0 (String a1 EmptyString))
      ((byteZ a0 - 0xC0) * 64 + (byteZ a1 - 0x80))
| wf3 (a0 a1 a2 : ascii) :
    0xE0 <= byteZ a0 <= 0xEF -> cont a1 -> cont a2 ->
    (byteZ a0 = 0xE0 -> 0xA0 <= byteZ a1) ->
    (byteZ a0 = 0xED -> byteZ a1 <= 0x9F) ->
    wellformed (String a0 (String a1 (String a2 EmptyString)))
      ((byteZ a0 - 0xE0) * 4096 + (byteZ a1 - 0x80) * 64 + (byteZ a2 - 0x80))
| wf4 (a0 a1 a2 a3 : ascii) :
    0xF0 <= byteZ a0 <= 0xF4 -> cont a1 -> cont a2 -> cont a3 ->
    (byteZ a0 = 0xF0 -> 0x90 <= byteZ a1) ->
    (byteZ a0 = 0xF4 -> byteZ a1 <= 0x8F) ->
    wellformed (String a0 (String a1 (String a2 (String a3 EmptyString))))
      ((byteZ a0 - 0xF0) * 262144 + (byteZ a1 - 0x80) * 4096
       + (byteZ a2 - 0x80) * 64 + (byteZ a3 - 0x80)).

(** [coerce s]: [s] with every ill-formed byte replaced by the encoding
    of U+FFFD. *)
Fixpoint coerce_from (skip : nat) (s : string) : string :=
  match s with
  | EmptyString => EmptyString
  | String a t =>
    match skip with
    | S k => String a (coerce_from k t)
    | O =>
      let '(r, size) := utf8.DecodeRuneInString s in
      if (r =? utf8.RuneError) && (size =? 1)%nat then
        utf8.EncodeRune utf8.RuneError ++ coerce_from 0 t
      else String a (coerce_from (size - 1) t)
    end
  end.

Definition coerce (s : string) : string := coerce_from 0 s.

Definition coerce_message (m : Message) : Message :=
  {| Number := coerce (Number m); Content := coerce (Content m) |}.

(** What the scanner returns for a literal that starts with the bytes [p]. *)
Definition prepend (p : string) (r : option (string * string))
  : option (string * string) :=
  match r with
  | Some (lit, rest) => Some (p ++ lit, rest)
  | None => None
  end.

(** What the encoder writes for an ASCII byte. *)
Definition ascii_piece (a : ascii) : string :=
  if json.htmlSafe (byteZ a) then String a EmptyString
  else json.escape_ascii (byteZ a).

(** *** A phone library and a transport to run the program on examples *)

Fixpoint digits_of (s : string) : string :=
  match s with
  | EmptyString => EmptyString
  | String c t => if json.isDigit c then String c (digits_of t) else digits_of t
  end.

(** A stand-in for the phone library: it accepts ten digits, with any
    punctuation between them, and formats them with the prefix of the
    United States. *)
#[export] Instance ten_digits : libphonenumber.Lib := {|
  libphonenumber.PhoneNumber := string;
  libphonenumber.Parse s _ :=
    let d := digits_of s in
    if (String.length d =? 10)%nat then inl d
    else inr (errorString "the phone number supplied is not a number");
  libphonenumber.Format d _ := "+1" ++ d
|}.

(** A transport that answers every request with [rbody]; the network
    state counts the requests. *)
Definition answering (rbody : string) : @Transport nat :=
  fun _ n =>
    (inl {| http.StatusCode := 200;
            http.RespBody := {| rc_id := n; rc_data := rbody; rc_err := None |} |},
     S n).

Definition start (c : @Client nat) : @State nat :=
  {| receiver := c; net := O; trace := [] |}.

Definition example_client (rbody : string) : @Client nat :=
  NewCustomClient (answering rbody) "key" "secret".

(** A stream whose reading fails. *)
Definition broken_stream : ReadCloser :=
  {| rc_id := 7; rc_data := "{"; rc_err := Some (errorString "unexpected EOF") |}.

(** *** More transports and streams to run the program on *)

(** A transport that fails every request with [e]. *)
Definition refusing (e : error) : @Transport nat :=
  fun _ n => (inr e, S n).

(** A transport that answers every request with the status [code] and a
    body whose reading yields [data] and then ends as [err] says. *)
Definition answering_with (code : Z) (data : string) (err : option error)
  : @Transport nat :=
  fun _ n =>
    (inl {| http.StatusCode := code;
            http.RespBody := {| rc_id := n; rc_data := data; rc_err := err |} |},
     S n).

(** A stream that reads [data] to the end. *)
Definition stream_of (data : string) : ReadCloser :=
  {| rc_id := 0; rc_data := data; rc_err := None |}.

(** * Properties of the libraries *)

(** ** Bytes and bit operations *)

Lemma byteZ_range (a : ascii) : 0 <= byteZ a < 256.
Proof.
  unfold byteZ. pose proof (N_ascii_bounded a). lia.
Qed.

Lemma byte_of_byteZ (a : ascii) : byte_of_Z (byteZ a) = a.
Proof.
  unfold byte_of_Z. pose proof (byteZ_range a) as R.
  change 0xFF with (Z.ones 8). rewrite Z.land_ones by lia.
  rewrite Z.mod_small by (change (2 ^ 8) with 256; lia).
  unfold byteZ. rewrite N2Z.id. apply ascii_N_embedding.
Qed.

Lemma land_lor_disjoint (x y k : Z) :
  0 <= k -> 0 <= y < 2 ^ k -> Z.land (x * 2 ^ k) y = 0.
Proof.
  intros Hk Hy. apply Z.bits_inj'. intros n Hn.
  rewrite Z.land_spec, Z.bits_0.
  destruct (Z.lt_ge_cases n k) as [L|G].
  - rewrite Z.mul_pow2_bits_low by lia. reflexivity.
  - destruct (Z.eq_dec y 0) as [->|N].
    + rewrite Z.bits_0. apply andb_false_r.
    + rewrite (Z.bits_above_log2 y n); [apply andb_false_r|lia|].
      assert (Z.log2 y < k) by (apply Z.log2_lt_pow2; lia). lia.
Qed.

Lemma lor_add (x y k : Z) :
  0 <= k -> 0 <= y < 2 ^ k -> Z.lor (x * 2 ^ k) y = x * 2 ^ k + y.
Proof.
  intros Hk Hy. pose proof (land_lor_disjoint x y k Hk Hy) as D.
  rewrite <- Z.lxor_lor by exact D. symmetry. apply Z.add_nocarry_lxor. exact D.
Qed.

(** ** UTF-8: the encoder undoes the decoder on well-formed runes *)

(** arithmetic reading of the decoder's expressions *)
Lemma rune2_arith (b0 b1 : Z) :
  0xC0 <= b0 <= 0xDF -> 0x80 <= b1 <= 0xBF ->
  Z.lor (Z.shiftl (Z.land b0 utf8.mask2) 6) (Z.land b1 utf8.maskx)
  = (b0 - 0xC0) * 64 + (b1 - 0x80).
Proof.
  intros H0 H1. unfold utf8.mask2, utf8.maskx.
  change 0x1F with (Z.ones 5). change 0x3F with (Z.ones 6).
  rewrite !Z.land_ones by lia. rewrite Z.shiftl_mul_pow2 by lia.
  change (2 ^ 5) with 32. change (2 ^ 6) with 64.
  assert (E0 : b0 mod 32 = b0 - 0xC0) by (Z.div_mod_to_equations; lia).
  assert (E1 : b1 mod 64 = b1 - 0x80) by (Z.div_mod_to_equations; lia).
  rewrite E0, E1.
  change 64 with (2 ^ 6). apply lor_add; lia.
Qed.

Lemma rune3_arith (b0 b1 b2 : Z) :
  0xE0 <= b0 <= 0xEF -> 0x80 <= b1 <= 0xBF -> 0x80 <= b2 <= 0xBF ->
  Z.lor (Z.lor (Z.shiftl (Z.land b0 utf8.mask3) 12)
               (Z.shiftl (Z.land b1 utf8.maskx) 6))
        (Z.land b2 utf8.maskx)
  = (b0 - 0xE0) * 4096 + (b1 - 0x80) * 64 + (b2 - 0x80).
Proof.
  intros H0 H1 H2. unfold utf8.mask3, utf8.maskx.
  change 0x0F with (Z.ones 4). change 0x3F with (Z.ones 6).
  rewrite !Z.land_ones by lia. rewrite !Z.shiftl_mul_pow2 by lia.
  change (2 ^ 4) with 16. change (2 ^ 6) with 64.
  assert (E0 : b0 mod 16 = b0 - 0xE0) by (Z.div_mod_to_equations; lia).
  assert (E1 : b1 mod 64 = b1 - 0x80) by (Z.div_mod_to_equations; lia).
  assert (E2 : b2 mod 64 = b2 - 0x80) by (Z.div_mod_to_equations; lia).
  rewrite E0, E1, E2.
  rewrite (lor_add (b0 - 0xE0) ((b1 - 0x80) * 64) 12)
    by (change (2 ^ 12) with 4096; lia).
  change (2 ^ 12) with 4096.
  replace ((b0 - 0xE0) * 4096 + (b1 - 0x80) * 64)
    with (((b0 - 0xE0) * 64 + (b1 - 0x80)) * 2 ^ 6)
    by (change (2 ^ 6) with 64; lia).
  rewrite lor_add by (change (2 ^ 6) with 64; lia).
  change (2 ^ 6) with 64. lia.
Qed.

Lemma rune4_arith (b0 b1 b2 b3 : Z) :
  0xF0 <= b0 <= 0xF7 -> 0x80 <= b1 <= 0xBF -> 0x80 <= b2 <= 0xBF ->
  0x80 <= b3 <= 0xBF ->
  Z.lor (Z.lor (Z.lor (Z.shiftl (Z.land b0 utf8.mask4) 18)
                      (Z.shiftl (Z.land b1 utf8.maskx) 12))
               (Z.shiftl (Z.land b2 utf8.maskx) 6))
        (Z.land b3 utf8.maskx)
  = (b0 - 0xF0) * 262144 + (b1 - 0x80) * 4096 + (b2 - 0x80) * 64 + (b3 - 0x80).
Proof.
  intros H0 H1 H2 H3. unfold utf8.mask4, utf8.maskx.
  change 0x07 with (Z.ones 3). change 0x3F with (Z.ones 6).
  rewrite !Z.land_ones by lia. rewrite !Z.shiftl_mul_pow2 by lia.
  change (2 ^ 3) with 8. change (2 ^ 6) with 64.
  assert (E0 : b0 mod 8 = b0 - 0xF0) by (Z.div_mod_to_equations; lia).
  assert (E1 : b1 mod 64 = b1 - 0x80) by (Z.div_mod_to_equations; lia).
  assert (E2 : b2 mod 64 = b2 - 0x80) by (Z.div_mod_to_equations; lia).
  assert (E3 : b3 mod 64 = b3 - 0x80) by (Z.div_mod_to_equations; lia).
  rewrite E0, E1, E2, E3.
  rewrite (lor_add (b0 - 0xF0) ((b1 - 0x80) * 2 ^ 12) 18)
    by (change (2 ^ 12) with 4096; change (2 ^ 18) with 262144; lia).
  change (2 ^ 18) with 262144. change (2 ^ 12) with 4096.
  replace ((b0 - 0xF0) * 262144 + (b1 - 0x80) * 4096)
    with (((b0 - 0xF0) * 64 + (b1 - 0x80)) * 2 ^ 12)
    by (change (2 ^ 12) with 4096; lia).
  rewrite (lor_add _ ((b2 - 0x80) * 64) 12)
    by (change (2 ^ 12) with 4096; lia).
  change (2 ^ 12) with 4096.
  replace (((b0 - 0xF0) * 64 + (b1 - 0x80)) * 4096 + (b2 - 0x80) * 64)
    with ((((b0 - 0xF0) * 64 + (b1 - 0x80)) * 64 + (b2 - 0x80)) * 2 ^ 6)
    by (change (2 ^ 6) with 64; lia).
  rewrite lor_add by (change (2 ^ 6) with 64; lia).
  change (2 ^ 6) with 64. lia.
Qed.

Ltac zbool :=
  repeat (match goal with
          | |- context [?a <=? ?b] => destruct (Z.leb_spec a b); try lia
          | |- context [?a <? ?b] => destruct (Z.ltb_spec a b); try lia
          | |- context [?a =? ?b] => destruct (Z.eqb_spec a b); try lia
          end; cbn [andb orb negb]).

Ltac bytes_eq := repeat (apply f_equal2; [apply f_equal|]); try reflexivity.

(** the lead byte and a continuation byte rebuilt by the encoder *)
Lemma lead_byte (t x k : Z) (r b : Z) :
  0 <= k -> t = x * 2 ^ k -> 0 <= r < 2 ^ k -> t + r = b ->
  Z.lor t r = b.
Proof. intros Hk -> Hr <-. apply lor_add; assumption. Qed.

Lemma cont_byte (r b : Z) :
  r mod 64 = b - 0x80 -> 0x80 <= b <= 0xBF ->
  Z.lor utf8.tx (Z.land r utf8.maskx) = b.
Proof.
  intros E R. unfold utf8.tx, utf8.maskx. change 0x3F with (Z.ones 6).
  rewrite Z.land_ones by lia. change (2 ^ 6) with 64. rewrite E.
  apply (lead_byte _ 2 6); [lia|reflexivity|change (2 ^ 6) with 64; lia|lia].
Qed.

Ltac pow2 :=
  change (2 ^ 3) with 8 in *; change (2 ^ 4) with 16 in *;
  change (2 ^ 6) with 64 in *; change (2 ^ 12) with 4096 in *;
  change (2 ^ 18) with 262144 in *.

Ltac divmod := pow2; unfold utf8.t2, utf8.t3, utf8.t4; Z.div_mod_to_equations; lia.

Ltac lead_with x k :=
  apply (lead_byte _ x k); [lia|reflexivity|divmod|divmod].

Ltac byte_goal :=
  rewrite ?Z.shiftr_div_pow2 by lia;
  first [ apply cont_byte; [divmod|lia]
        | lead_with 3 6 | lead_with 14 4 | lead_with 30 3 ].

Lemma EncodeRune2 (b0 b1 : Z) :
  0xC2 <= b0 <= 0xDF -> 0x80 <= b1 <= 0xBF ->
  utf8.EncodeRune ((b0 - 0xC0) * 64 + (b1 - 0x80))
  = String (byte_of_Z b0) (String (byte_of_Z b1) EmptyString).
Proof.
  intros H0 H1. unfold utf8.EncodeRune, utf8.rune1Max, utf8.rune2Max.
  zbool; bytes_eq; byte_goal.
Qed.

Lemma EncodeRune3 (b0 b1 b2 : Z) :
  0xE0 <= b0 <= 0xEF -> 0x80 <= b1 <= 0xBF -> 0x80 <= b2 <= 0xBF ->
  (b0 = 0xE0 -> 0xA0 <= b1) -> (b0 = 0xED -> b1 <= 0x9F) ->
  utf8.EncodeRune ((b0 - 0xE0) * 4096 + (b1 - 0x80) * 64 + (b2 - 0x80))
  = String (byte_of_Z b0) (String (byte_of_Z b1)
      (String (byte_of_Z b2) EmptyString)).
Proof.
  intros H0 H1 H2 L H.
  unfold utf8.EncodeRune, utf8.rune1Max, utf8.rune2Max, utf8.rune3Max,
    utf8.MaxRune, utf8.surrogateMin, utf8.surrogateMax.
  zbool; bytes_eq; byte_goal.
Qed.

Lemma EncodeRune4 (b0 b1 b2 b3 : Z) :
  0xF0 <= b0 <= 0xF4 -> 0x80 <= b1 <= 0xBF -> 0x80 <= b2 <= 0xBF ->
  0x80 <= b3 <= 0xBF ->
  (b0 = 0xF0 -> 0x90 <= b1) -> (b0 = 0xF4 -> b1 <= 0x8F) ->
  utf8.EncodeRune ((b0 - 0xF0) * 262144 + (b1 - 0x80) * 4096
                   + (b2 - 0x80) * 64 + (b3 - 0x80))
  = String (byte_of_Z b0) (String (byte_of_Z b1)
      (String (byte_of_Z b2) (String (byte_of_Z b3) EmptyString))).
Proof.
  intros H0 H1 H2 H3 L H.
  unfold utf8.EncodeRune, utf8.rune1Max, utf8.rune2Max, utf8.rune3Max,
    utf8.MaxRune, utf8.surrogateMin, utf8.surrogateMax.
  zbool; bytes_eq; byte_goal.
Qed.

Lemma wellformed_encode (pre : string) (c : Z) :
  wellformed pre c -> utf8.EncodeRune c = pre.
Proof.
  intros [a0 a1 ? ?|a0 a1 a2 ? ? ? ? ?|a0 a1 a2 a3 ? ? ? ? ? ?];
    unfold cont in *.
  - rewrite EncodeRune2 by assumption. rewrite !byte_of_byteZ. reflexivity.
  - rewrite EncodeRune3 by assumption. rewrite !byte_of_byteZ. reflexivity.
  - rewrite EncodeRune4 by assumption. rewrite !byte_of_byteZ. reflexivity.
Qed.

Ltac zbool_in H :=
  repeat (match type of H with
          | context [?a <=? ?b] => destruct (Z.leb_spec a b); try lia
          | context [?a <? ?b] => destruct (Z.ltb_spec a b); try lia
          | context [?a =? ?b] => destruct (Z.eqb_spec a b); try lia
          end; cbn [andb orb negb] in H).

Lemma wellformed_decode (pre : string) (c : Z) (X : string) :
  wellformed pre c ->
  utf8.DecodeRuneInString (pre ++ X) = (c, String.length pre).
Proof.
  intros [a0 a1 ? ?|a0 a1 a2 ? ? ? ? ?|a0 a1 a2 a3 ? ? ? ? ? ?];
    unfold cont in *;
    cbn [append String.length]; unfold utf8.DecodeRuneInString, utf8.first,
      utf8.outside, utf8.locb, utf8.hicb;
    zbool; cbn [String.length Nat.ltb Nat.leb]; zbool;
    rewrite ?rune2_arith, ?rune3_arith, ?rune4_arith by lia; try reflexivity.
Qed.

Lemma decode_wellformed (a0 : ascii) (t : string) (c : Z) (size : nat) :
  0x80 <= byteZ a0 ->
  utf8.DecodeRuneInString (String a0 t) = (c, size) ->
  (c =? utf8.RuneError) && (size =? 1)%nat = false ->
  exists pre suf,
    String a0 t = pre ++ suf /\ wellformed pre c /\ size = String.length pre.
Proof.
  intros Hhi H NV.
  unfold utf8.DecodeRuneInString, utf8.first, utf8.outside, utf8.locb,
    utf8.hicb in H.
  destruct t as [|a1 [|a2 [|a3 r]]];
    zbool_in H; cbn [String.length Nat.ltb Nat.leb] in H; zbool_in H;
    pose proof (f_equal fst H) as Hc; pose proof (f_equal snd H) as Hs;
    cbn [fst snd] in Hc, Hs; subst c size; clear H; try discriminate NV.
  all: rewrite ?rune2_arith, ?rune3_arith, ?rune4_arith by lia.
  all: first
    [ exists (String a0 (String a1 EmptyString));
      eexists; split; [reflexivity|split; [|reflexivity]];
      apply wf2; unfold cont; lia
    | exists (String a0 (String a1 (String a2 EmptyString)));
      eexists; split; [reflexivity|split; [|reflexivity]];
      apply wf3; unfold cont; lia
    | exists (String a0 (String a1 (String a2 (String a3 EmptyString))));
      eexists; split; [reflexivity|split; [|reflexivity]];
      apply wf4; unfold cont; lia ].
Qed.

(** ** JSON strings: escaping, and reading the escapes back *)

Lemma escape_step (a : ascii) (t : string) :
  json.escape_from (json.Copy 0) (String a t) =
  if byteZ a <? utf8.RuneSelf then
    ascii_piece a ++ json.escape_from (json.Copy 0) t
  else
    let '(c, size) := utf8.DecodeRuneInString (String a t) in
    if (c =? utf8.RuneError) && (size =? 1)%nat then
      json.replacement_escape ++ json.escape_from (json.Copy 0) t
    else if (c =? 0x2028) || (c =? 0x2029) then
      "\u202" ++ String (json.hexdigit (Z.land c 0xF))
                   (json.escape_from (json.Drop (size - 1)) t)
    else String a (json.escape_from (json.Copy (size - 1)) t).
Proof.
  unfold ascii_piece. cbn [json.escape_from].
  destruct (byteZ a <? utf8.RuneSelf); [|reflexivity].
  destruct (json.htmlSafe (byteZ a)); reflexivity.
Qed.

Lemma escape_drop0 (s : string) :
  json.escape_from (json.Drop 0) s = json.escape_from (json.Copy 0) s.
Proof. destruct s; reflexivity. Qed.

Lemma valid_step (a : ascii) (t : string) :
  utf8.valid_from 0 (String a t) =
  let '(r, size) := utf8.DecodeRuneInString (String a t) in
  if (r =? utf8.RuneError) && (size =? 1)%nat then false
  else utf8.valid_from (size - 1) t.
Proof. reflexivity. Qed.

Lemma decode_ascii (a : ascii) (t : string) :
  byteZ a < 0x80 -> utf8.DecodeRuneInString (String a t) = (byteZ a, 1%nat).
Proof.
  intros H. unfold utf8.DecodeRuneInString, utf8.first.
  destruct (Z.ltb_spec (byteZ a) 0x80); [reflexivity|lia].
Qed.

Lemma prepend_cons (c : ascii) (r : option (string * string)) :
  json.cons_fst c r = prepend (String c EmptyString) r.
Proof. destruct r as [[lit rest]|]; reflexivity. Qed.

Lemma ascii_piece_decodes (a : ascii) (X : string) :
  byteZ a < 0x80 ->
  json.unquote_from 0 (ascii_piece a ++ X)
  = json.app_opt (String a EmptyString) (json.unquote_from 0 X)
  /\ json.scan_string (ascii_piece a ++ X)
     = prepend (ascii_piece a) (json.scan_string X).
Proof.
  intros H.
  destruct a as [[] [] [] [] [] [] [] []];
    try (exfalso; vm_compute in H; discriminate H);
    (split; [reflexivity|]);
    destruct (json.scan_string X) as [[lit rest]|] eqn:E;
    cbn; rewrite ?E; reflexivity.
Qed.

Lemma hi_not_ascii (a c : ascii) :
  0x80 <= byteZ a -> byteZ c < 0x80 -> Ascii.eqb a c = false.
Proof.
  intros Ha Hc. apply Ascii.eqb_neq. intros ->. lia.
Qed.

Lemma scan_hi (a : ascii) (X : string) :
  0x80 <= byteZ a ->
  json.scan_string (String a X) = json.cons_fst a (json.scan_string X).
Proof.
  intros H. cbn [json.scan_string].
  rewrite (hi_not_ascii a dquote H) by (vm_compute; reflexivity).
  rewrite (hi_not_ascii a "\"%char H) by (vm_compute; reflexivity).
  destruct (Z.ltb_spec (byteZ a) 0x20); [lia|reflexivity].
Qed.

Lemma unquote_hi (a : ascii) (t : string) :
  0x80 <= byteZ a ->
  json.unquote_from 0 (String a t) =
  let '(rr, size) := utf8.DecodeRuneInString (String a t) in
  json.app_opt (utf8.EncodeRune rr) (json.unquote_from (size - 1) t).
Proof.
  intros H. cbn [json.unquote_from].
  rewrite (hi_not_ascii a dquote H) by (vm_compute; reflexivity).
  rewrite (hi_not_ascii a "\"%char H) by (vm_compute; reflexivity).
  cbn [orb].
  destruct (Z.ltb_spec (byteZ a) 0x20); [lia|].
  destruct (Z.ltb_spec (byteZ a) utf8.RuneSelf);
    [unfold utf8.RuneSelf in *; lia|reflexivity].
Qed.

Lemma wellformed_hi (pre : string) (c : Z) (X : string) :
  wellformed pre c ->
  json.scan_string (pre ++ X) = prepend pre (json.scan_string X)
  /\ json.unquote_from 0 (pre ++ X)
     = json.app_opt pre (json.unquote_from 0 X).
Proof.
  intros W. pose proof (wellformed_decode pre c X W) as D.
  pose proof (wellformed_encode pre c W) as E.
  destruct W; unfold cont in *; cbn [append] in *; split.
  all: try (rewrite !scan_hi by lia; destruct (json.scan_string X) as [[? ?]|];
            reflexivity).
  all: rewrite unquote_hi by lia; rewrite D, E; reflexivity.
Qed.

Lemma coerce_step (a : ascii) (t : string) :
  coerce_from 0 (String a t) =
  let '(r, size) := utf8.DecodeRuneInString (String a t) in
  if (r =? utf8.RuneError) && (size =? 1)%nat then
    utf8.EncodeRune utf8.RuneError ++ coerce_from 0 t
  else String a (coerce_from (size - 1) t).
Proof. reflexivity. Qed.

(** One rune, or one ill-formed byte, of a string: how it is escaped, and
    how its escape is read back. *)
Lemma piece_step (s : string) :
  s <> EmptyString ->
  exists pre suf esc dec,
    s = pre ++ suf
    /\ (String.length suf < String.length s)%nat
    /\ utf8.valid_from 0 s
       = (String.eqb dec pre && utf8.valid_from 0 suf)%bool
    /\ coerce_from 0 s = dec ++ coerce_from 0 suf
    /\ json.escape_from (json.Copy 0) s = esc ++ json.escape_from (json.Copy 0) suf
    /\ (forall X, json.unquote_from 0 (esc ++ X)
                  = json.app_opt dec (json.unquote_from 0 X))
    /\ (forall X, json.scan_string (esc ++ X) = prepend esc (json.scan_string X)).
Proof.
  destruct s as [|a t]; [congruence|]. intros _.
  rewrite valid_step, escape_step, coerce_step.
  destruct (Z.ltb_spec (byteZ a) utf8.RuneSelf) as [L|G];
    unfold utf8.RuneSelf in *.
  - rewrite decode_ascii by exact L.
    destruct (Z.eqb_spec (byteZ a) utf8.RuneError);
      [unfold utf8.RuneError in *; lia|]. cbn [andb Nat.sub].
    exists (String a EmptyString), t, (ascii_piece a), (String a EmptyString).
    rewrite String.eqb_refl.
    repeat split; try reflexivity.
    + cbn. lia.
    + intros X. apply ascii_piece_decodes. exact L.
    + intros X. apply ascii_piece_decodes. exact L.
  - destruct (utf8.DecodeRuneInString (String a t)) as [c size] eqn:D.
    destruct ((c =? utf8.RuneError) && (size =? 1)%nat) eqn:NV.
    { exists (String a EmptyString), t, json.replacement_escape,
        (utf8.EncodeRune utf8.RuneError).
      repeat split; try reflexivity.
      - cbn. lia.
      - destruct (String.eqb_spec (utf8.EncodeRune utf8.RuneError)
                    (String a EmptyString)) as [E|E]; [|reflexivity].
        exfalso. vm_compute in E. discriminate E.
      - intros X. destruct (json.scan_string X) as [[? ?]|] eqn:EX; cbn;
          rewrite ?EX; reflexivity. }
    destruct (decode_wellformed a t c size G D NV) as (pre & suf & E & W & S).
    pose proof (wellformed_encode pre c W) as EN.
    exists pre, suf.
    assert (SH : (String.length suf < String.length (String a t))%nat
                 /\ utf8.valid_from (size - 1) t = utf8.valid_from 0 suf
                 /\ String a (coerce_from (size - 1) t) = pre ++ coerce_from 0 suf
                 /\ String a (json.escape_from (json.Copy (size - 1)) t)
                    = pre ++ json.escape_from (json.Copy 0) suf
                 /\ json.escape_from (json.Drop (size - 1)) t
                    = json.escape_from (json.Copy 0) suf).
    { subst size. destruct W; cbn [append] in E; injection E as -> ->;
        cbn [String.length Nat.sub utf8.valid_from json.escape_from append
             coerce_from] in *;
        rewrite ?escape_drop0; repeat split; lia. }
    destruct SH as (S1 & S2 & S3 & S4 & S5).
    destruct ((c =? 0x2028) || (c =? 0x2029)) eqn:LS.
    + exists ("\u202" ++ String (json.hexdigit (Z.land c 0xF)) EmptyString), pre.
      assert (C : c = 0x2028 \/ c = 0x2029).
      { destruct (Z.eqb_spec c 0x2028); [left; assumption|].
        destruct (Z.eqb_spec c 0x2029); [right; assumption|discriminate]. }
      rewrite String.eqb_refl, S5.
      repeat split; try assumption; try reflexivity.
      * intros X. rewrite <- EN. destruct C as [C|C]; rewrite C; reflexivity.
      * intros X. destruct C as [C|C]; rewrite C;
          destruct (json.scan_string X) as [[? ?]|] eqn:EX; cbn; rewrite ?EX;
          reflexivity.
    + exists pre, pre. rewrite String.eqb_refl.
      repeat split; try assumption.
      * intros X. apply (wellformed_hi pre c X W).
      * intros X. apply (wellformed_hi pre c X W).
Qed.

Lemma append_assoc (a b c : string) : (a ++ b) ++ c = a ++ (b ++ c).
Proof. induction a as [|x a IH]; cbn; [reflexivity|rewrite IH; reflexivity]. Qed.

(** The escaped form of any string is a literal of the scanner, and
    [unquote] reads it back as the string with its ill-formed bytes
    replaced. *)
Lemma escape_decodes (s : string) :
  json.unquote_from 0 (json.escape_from (json.Copy 0) s) = Some (coerce s)
  /\ forall rest,
       json.scan_string (json.escape_from (json.Copy 0) s ++ String dquote rest)
       = Some (json.escape_from (json.Copy 0) s, rest).
Proof.
  remember (String.length s) as n eqn:N.
  revert s N. induction n as [n IH] using lt_wf_ind. intros s N.
  destruct s as [|a t]; [split; reflexivity|].
  destruct (piece_step (String a t))
    as (pre & suf & esc & dec & E & L & _ & C & EE & U & S); [discriminate|].
  destruct (IH (String.length suf)) with (s := suf) as [IU IS];
    [rewrite N; exact L|reflexivity|].
  rewrite EE. unfold coerce in *. split.
  - rewrite U, IU, C. reflexivity.
  - intros rest. rewrite append_assoc, S, IS. reflexivity.
Qed.

(** A valid string has no byte to replace. *)
Lemma coerce_valid (s : string) :
  utf8.ValidString s = true -> coerce s = s.
Proof.
  unfold utf8.ValidString, coerce.
  remember (String.length s) as n eqn:N.
  revert s N. induction n as [n IH] using lt_wf_ind. intros s N V.
  destruct s as [|a t]; [reflexivity|].
  destruct (piece_step (String a t))
    as (pre & suf & esc & dec & E & L & VE & C & _); [discriminate|].
  rewrite VE in V. apply andb_prop in V. destruct V as [D V].
  apply String.eqb_eq in D. subst dec.
  rewrite C, (IH (String.length suf)) by (try reflexivity; try assumption; lia).
  symmetry. exact E.
Qed.

Lemma parse_string_appendString (s rest : string) :
  json.parse_string (json.escape_from (json.Copy 0) s ++ String dquote rest)
  = json.Ok (coerce s) rest.
Proof.
  destruct (escape_decodes s) as [U S].
  unfold json.parse_string, json.unquote. rewrite S, U. reflexivity.
Qed.

(** ** The parser: fuel, and the literals of the scanner *)

Lemma skip_ws_length (s : string) :
  (String.length (json.skip_ws s) <= String.length s)%nat.
Proof.
  induction s as [|c t IH]; cbn [json.skip_ws]; [lia|].
  destruct (json.isSpace c); cbn [String.length]; lia.
Qed.

Lemma cons_fst_some (c : ascii) (r : option (string * string)) (raw rest : string) :
  json.cons_fst c r = Some (raw, rest) ->
  exists raw', r = Some (raw', rest) /\ raw = String c raw'.
Proof.
  destruct r as [[l x]|]; cbn; [|discriminate].
  intros E. injection E as <- <-. eexists. split; reflexivity.
Qed.

Lemma scan_string_length (s raw rest : string) :
  json.scan_string s = Some (raw, rest) ->
  (String.length rest < String.length s)%nat.
Proof.
  remember (String.length s) as n eqn:N. revert s raw rest N.
  induction n as [n IH] using lt_wf_ind. intros s raw rest N H.
  destruct s as [|c t]; [discriminate|]. cbn [json.scan_string] in H.
  cbn [String.length] in N.
  destruct (Ascii.eqb c dquote).
  { injection H as _ <-. lia. }
  destruct (Ascii.eqb c "\"%char).
  - destruct t as [|e t1]; [discriminate|].
    destruct (json.simple_escape e).
    + apply cons_fst_some in H. destruct H as (r1 & H & _).
      apply cons_fst_some in H. destruct H as (r2 & H & _).
      apply (IH (String.length t1)) in H; cbn [String.length] in *; try lia.
    + destruct (Ascii.eqb e "u"%char); [|discriminate].
      destruct t1 as [|h1 [|h2 [|h3 [|h4 t5]]]]; try discriminate.
      destruct (_ && _); [|discriminate].
      repeat (apply cons_fst_some in H; destruct H as (? & H & _)).
      apply (IH (String.length t5)) in H; cbn [String.length] in *; try lia.
  - destruct (_ <? _)%Z; [discriminate|].
    apply cons_fst_some in H. destruct H as (r1 & H & _).
    apply (IH (String.length t)) in H; lia.
Qed.

Lemma parse_string_length (t u rest : string) :
  json.parse_string t = json.Ok u rest ->
  (String.length rest < String.length t)%nat.
Proof.
  unfold json.parse_string.
  destruct (json.scan_string t) as [[raw r]|] eqn:E; [|discriminate].
  destruct (json.unquote raw); [|discriminate].
  intros H. injection H as _ <-. apply (scan_string_length _ _ _ E).
Qed.

Lemma span_digits_length (s ds rest : string) :
  json.span_digits s = (ds, rest) ->
  (String.length rest <= String.length s)%nat.
Proof.
  revert ds rest. induction s as [|c t IH]; intros ds rest H; cbn in H.
  - injection H as _ <-. cbn. lia.
  - destruct (json.isDigit c).
    + destruct (json.span_digits t) as [d r]. injection H as _ <-.
      specialize (IH d r eq_refl). cbn. lia.
    + injection H as _ <-. lia.
Qed.

Lemma strip_prefix_length (p s rest : string) :
  json.strip_prefix p s = Some rest ->
  (String.length rest <= String.length s)%nat.
Proof.
  revert s. induction p as [|a p IH]; intros s H; cbn in H.
  - injection H as <-. lia.
  - destruct s as [|b s]; [discriminate|].
    destruct (Ascii.eqb a b); [|discriminate].
    apply IH in H. cbn. lia.
Qed.

Lemma scan_int_length (s lit rest : string) :
  json.scan_int s = Some (lit, rest) ->
  (String.length rest < String.length s)%nat.
Proof.
  destruct s as [|c t]; [discriminate|]. cbn [json.scan_int String.length].
  destruct (Ascii.eqb c "0"%char).
  { intros H. injection H as _ <-. lia. }
  destruct (json.isDigit c); [|discriminate].
  destruct (json.span_digits t) as [ds r] eqn:E.
  intros H. injection H as _ <-. apply span_digits_length in E. lia.
Qed.

Lemma scan_frac_length (s lit rest : string) :
  json.scan_frac s = Some (lit, rest) ->
  (String.length rest <= String.length s)%nat.
Proof.
  destruct s as [|c t]; cbn [json.scan_frac String.length].
  { intros H. injection H as _ <-. cbn. lia. }
  destruct (Ascii.eqb c "."%char).
  - destruct (json.span_digits t) as [[|d ds] r] eqn:E; [discriminate|].
    intros H. injection H as _ <-. apply span_digits_length in E. lia.
  - intros H. injection H as _ <-. cbn. lia.
Qed.

Lemma scan_exp_length (s lit rest : string) :
  json.scan_exp s = Some (lit, rest) ->
  (String.length rest <= String.length s)%nat.
Proof.
  destruct s as [|c t]; cbn [json.scan_exp String.length].
  { intros H. injection H as _ <-. cbn. lia. }
  destruct (_ || _).
  - destruct t as [|g t'].
    + cbn. discriminate.
    + destruct (_ || _);
        match goal with
        | |- context [json.span_digits ?x] =>
          destruct (json.span_digits x) as [[|d ds] r] eqn:E; [discriminate|]
        end;
        intros H; injection H as _ <-; apply span_digits_length in E;
        cbn [String.length] in *; lia.
  - intros H. injection H as _ <-. cbn. lia.
Qed.

Lemma scan_number_length (s lit rest : string) :
  json.scan_number s = Some (lit, rest) ->
  (String.length rest < String.length s)%nat.
Proof.
  unfold json.scan_number.
  assert (G : forall s1, (String.length s1 <= String.length s)%nat ->
            match json.scan_int s1 with
            | Some (ip, s2) =>
              match json.scan_frac s2 with
              | Some (fp, s3) =>
                match json.scan_exp s3 with
                | Some (ep, s4) => (String.length s4 < String.length s)%nat
                | None => True
                end
              | None => True
              end
            | None => True
            end).
  { intros s1 L1.
    destruct (json.scan_int s1) as [[ip s2]|] eqn:E1; [|exact I].
    destruct (json.scan_frac s2) as [[fp s3]|] eqn:E2; [|exact I].
    destruct (json.scan_exp s3) as [[ep s4]|] eqn:E3; [|exact I].
    apply scan_int_length in E1. apply scan_frac_length in E2.
    apply scan_exp_length in E3. lia. }
  destruct s as [|c t].
  - specialize (G EmptyString (Nat.le_refl _)).
    destruct (json.scan_int EmptyString) as [[ip s2]|]; [|discriminate].
    destruct (json.scan_frac s2) as [[fp s3]|]; [|discriminate].
    destruct (json.scan_exp s3) as [[ep s4]|]; [|discriminate].
    intros H. injection H as _ <-. exact G.
  - destruct (Ascii.eqb c "-"%char).
    + assert (L : (String.length t <= String.length (String c t))%nat)
        by (cbn; lia).
      specialize (G t L).
      destruct (json.scan_int t) as [[ip s2]|]; [|discriminate].
      destruct (json.scan_frac s2) as [[fp s3]|]; [|discriminate].
      destruct (json.scan_exp s3) as [[ep s4]|]; [|discriminate].
      intros H. injection H as _ <-. exact G.
    + specialize (G (String c t) (Nat.le_refl _)).
      destruct (json.scan_int (String c t)) as [[ip s2]|]; [|discriminate].
      destruct (json.scan_frac s2) as [[fp s3]|]; [|discriminate].
      destruct (json.scan_exp s3) as [[ep s4]|]; [|discriminate].
      intros H. injection H as _ <-. exact G.
Qed.

Lemma fine_bad {A} (enough : Prop) (s : string) :
  fine enough (@json.Bad A) s.
Proof. split; [discriminate|]. intros v rest H. discriminate H. Qed.

Lemma fine_ok {A} (enough : Prop) (a : A) (rest s : string) :
  (String.length rest < String.length s)%nat ->
  fine enough (json.Ok a rest) s.
Proof.
  intros L. split; [discriminate|]. intros v r H. injection H as _ <-. exact L.
Qed.

Lemma fine_weaken {A} (P Q : Prop) (r : json.res A) (s s' : string) :
  fine P r s' -> (Q -> P) ->
  (String.length s' <= String.length s)%nat ->
  fine Q r s.
Proof.
  intros [F1 F2] I L. split.
  - intros q. apply F1, I, q.
  - intros v rest H. specialize (F2 v rest H). lia.
Qed.

Ltac skip_ws_facts :=
  repeat match goal with
  | H : json.skip_ws ?x = _ |- _ =>
    lazymatch goal with
    | _ : (String.length (json.skip_ws x) <= String.length x)%nat |- _ => fail
    | _ => pose proof (skip_ws_length x)
    end
  end;
  repeat match goal with
  | H : json.skip_ws ?x = _, L : context [json.skip_ws ?x] |- _ =>
    rewrite H in L
  end;
  cbn [String.length] in *.

Lemma parser_fuel (f : nat) :
  (forall d s,
     fine (2 * String.length s < f)%nat (json.parse_value f d s) s)
  /\ (forall d s acc,
        fine (2 * String.length s + 1 < f)%nat (json.parse_elems f d s acc) s)
  /\ (forall d s acc,
        fine (2 * String.length s + 1 < f)%nat (json.parse_members f d s acc) s).
Proof.
  induction f as [|f (IHv & IHe & IHm)].
  { repeat split; try (intros; cbn in *; lia); intros; discriminate. }
  split; [|split].
  - intros d s. cbn [json.parse_value].
    destruct (json.skip_ws s) as [|c t] eqn:E1; [apply fine_bad|].
    destruct (Ascii.eqb c "{"%char).
    { destruct (d <? json.maxNestingDepth)%N; [|apply fine_bad].
      destruct (json.skip_ws t) as [|c' t'] eqn:E2; [apply fine_bad|].
      skip_ws_facts.
      destruct (Ascii.eqb c' "}"%char); [apply fine_ok; lia|].
      apply (fine_weaken _ _ _ _ _ (IHm (d + 1)%N (String c' t') []));
        cbn [String.length]; lia. }
    destruct (Ascii.eqb c "["%char).
    { destruct (d <? json.maxNestingDepth)%N; [|apply fine_bad].
      destruct (json.skip_ws t) as [|c' t'] eqn:E2; [apply fine_bad|].
      skip_ws_facts.
      destruct (Ascii.eqb c' "]"%char); [apply fine_ok; lia|].
      apply (fine_weaken _ _ _ _ _ (IHe (d + 1)%N (String c' t') []));
        cbn [String.length]; lia. }
    skip_ws_facts.
    destruct (Ascii.eqb c dquote).
    { destruct (json.parse_string t) as [u rest| |] eqn:P; try apply fine_bad.
      apply parse_string_length in P. apply fine_ok. lia. }
    destruct (_ || _).
    { destruct (json.scan_number (String c t)) as [[lit rest]|] eqn:P;
        [|apply fine_bad].
      apply scan_number_length in P. cbn [String.length] in P.
      apply fine_ok. lia. }
    repeat match goal with
    | |- context [Ascii.eqb c ?x] => destruct (Ascii.eqb c x)
    | |- context [json.strip_prefix ?p t] =>
      let P := fresh "P" in
      destruct (json.strip_prefix p t) as [rest|] eqn:P;
        [apply strip_prefix_length in P; apply fine_ok; lia|apply fine_bad]
    end.
    apply fine_bad.
  - intros d s acc. cbn [json.parse_elems].
    destruct (IHv d s) as [Fv1 Fv2].
    destruct (json.parse_value f d s) as [v rest| |] eqn:P.
    + specialize (Fv2 v rest eq_refl).
      destruct (json.skip_ws rest) as [|c t] eqn:E1; [apply fine_bad|].
      skip_ws_facts.
      destruct (Ascii.eqb c ","%char).
      { apply (fine_weaken _ _ _ _ _ (IHe d t (v :: acc))); lia. }
      destruct (Ascii.eqb c "]"%char); [apply fine_ok; lia|apply fine_bad].
    + apply fine_bad.
    + split; [|discriminate]. intros B _. apply Fv1; [lia|reflexivity].
  - intros d s acc. cbn [json.parse_members].
    destruct (json.skip_ws s) as [|c t] eqn:E1; [apply fine_bad|].
    destruct (Ascii.eqb c dquote); [|apply fine_bad].
    destruct (json.parse_string t) as [key rest| |] eqn:P; try apply fine_bad.
    apply parse_string_length in P.
    destruct (json.skip_ws rest) as [|c1 t1] eqn:E2; [apply fine_bad|].
    destruct (Ascii.eqb c1 ":"%char); [|apply fine_bad].
    skip_ws_facts.
    destruct (IHv d t1) as [Fv1 Fv2].
    destruct (json.parse_value f d t1) as [v rest2| |] eqn:P2.
    + specialize (Fv2 v rest2 eq_refl).
      destruct (json.skip_ws rest2) as [|c2 t2] eqn:E3; [apply fine_bad|].
      skip_ws_facts.
      destruct (Ascii.eqb c2 ","%char).
      { apply (fine_weaken _ _ _ _ _ (IHm d t2 ((key, v) :: acc))); lia. }
      destruct (Ascii.eqb c2 "}"%char); [apply fine_ok; lia|apply fine_bad].
    + apply fine_bad.
    + split; [|discriminate]. intros B _. apply Fv1; [lia|reflexivity].
Qed.

(** The parser never runs out of the fuel [parse] gives it. *)
Lemma parse_value_fuel (data : string) :
  json.parse_value (S (2 * String.length data)) 0 data <> json.OutOfFuel.
Proof.
  destruct (parser_fuel (S (2 * String.length data))) as [F _].
  apply (F 0%N data). lia.
Qed.

Lemma scan_string_literal (s raw rest : string) :
  json.scan_string s = Some (raw, rest) -> literal raw.
Proof.
  remember (String.length s) as n eqn:N. revert s raw rest N.
  induction n as [n IH] using lt_wf_ind. intros s raw rest N H.
  destruct s as [|c t]; [discriminate|]. cbn [json.scan_string] in H.
  cbn [String.length] in N.
  destruct (Ascii.eqb c dquote) eqn:Q.
  { injection H as <- _. constructor. }
  destruct (Ascii.eqb c "\"%char) eqn:B.
  - apply Ascii.eqb_eq in B. subst c.
    destruct t as [|e t1]; [discriminate|].
    destruct (json.simple_escape e) eqn:SE.
    + apply cons_fst_some in H. destruct H as (r1 & H & ->).
      apply cons_fst_some in H. destruct H as (r2 & H & ->).
      apply lit_esc; [exact SE|].
      apply (IH (String.length t1)) in H; cbn [String.length] in *;
        [exact H|lia|reflexivity].
    + destruct (Ascii.eqb e "u"%char) eqn:U; [|discriminate].
      apply Ascii.eqb_eq in U. subst e.
      destruct t1 as [|h1 [|h2 [|h3 [|h4 t5]]]]; try discriminate.
      destruct (_ && _) eqn:HX; [|discriminate].
      repeat (apply cons_fst_some in H;
              let r := fresh "r" in destruct H as (r & H & ->)).
      apply lit_u; [exact HX|].
      apply (IH (String.length t5)) in H; cbn [String.length] in *;
        [exact H|lia|reflexivity].
  - destruct (_ <? _)%Z eqn:L; [discriminate|].
    apply cons_fst_some in H. destruct H as (r1 & H & ->).
    apply lit_plain; try assumption.
    apply (IH (String.length t)) in H; [exact H|lia|reflexivity].
Qed.

Lemma unquote_skip (k : nat) (s : string) :
  json.unquote_from k s = json.unquote_from 0 (skipn_string k s).
Proof.
  revert k. induction s as [|c t IH]; intros [|k]; try reflexivity.
  cbn [json.unquote_from skipn_string]. apply IH.
Qed.

Lemma literal_hi_tail (a : ascii) (X : string) :
  0x80 <= byteZ a -> literal (String a X) -> literal X.
Proof.
  intros H L. inversion L; subst; [assumption| |];
    exfalso; vm_compute in H; apply H; reflexivity.
Qed.

Lemma literal_after_rune (pre suf : string) (c : Z) :
  wellformed pre c -> literal (pre ++ suf) -> literal suf.
Proof.
  intros W L. destruct W; unfold cont in *; cbn [append] in L;
    repeat (apply literal_hi_tail in L; [|lia]); exact L.
Qed.

Lemma hexval_nonneg (h : ascii) : json.isHex h = true -> 0 <= json.hexval h < 16.
Proof.
  unfold json.isHex, json.hexval. intros H.
  repeat match goal with
  | |- context [?a <=? ?b] => destruct (Z.leb_spec a b)
  end; cbn [andb orb] in *; try discriminate; lia.
Qed.

Lemma getu4_escape (h1 h2 h3 h4 : ascii) (t : string) :
  json.isHex h1 && json.isHex h2 && json.isHex h3 && json.isHex h4 = true ->
  0 <= json.getu4 (String "\" (String "u" (String h1 (String h2 (String h3
                     (String h4 t)))))).
Proof.
  intros H. cbn [json.getu4].
  apply andb_prop in H. destruct H as [H H4].
  apply andb_prop in H. destruct H as [H H3].
  apply andb_prop in H. destruct H as [H1 H2].
  rewrite !Ascii.eqb_refl, H1, H2, H3, H4. cbn [andb].
  apply hexval_nonneg in H1, H2, H3, H4. lia.
Qed.

Lemma getu4_shape (s : string) :
  0 <= json.getu4 s ->
  exists h1 h2 h3 h4 t,
    s = String "\" (String "u" (String h1 (String h2 (String h3 (String h4 t)))))
    /\ json.isHex h1 && json.isHex h2 && json.isHex h3 && json.isHex h4 = true.
Proof.
  destruct s as [|b [|u [|h1 [|h2 [|h3 [|h4 t]]]]]]; cbn [json.getu4];
    try lia.
  destruct (Ascii.eqb b "\"%char) eqn:B; [|cbn; lia].
  destruct (Ascii.eqb u "u"%char) eqn:U; [|cbn; lia].
  cbn [andb].
  destruct (json.isHex h1) eqn:H1; [|cbn; lia].
  destruct (json.isHex h2) eqn:H2; [|cbn; lia].
  destruct (json.isHex h3) eqn:H3; [|cbn; lia].
  destruct (json.isHex h4) eqn:H4; [|cbn; lia].
  intros _. apply Ascii.eqb_eq in B, U. subst.
  exists h1, h2, h3, h4, t.
  split; [reflexivity|rewrite H1, H2, H3, H4; reflexivity].
Qed.

Lemma literal_after_escape (h1 h2 h3 h4 : ascii) (t : string) :
  literal (String "\" (String "u" (String h1 (String h2 (String h3
             (String h4 t)))))) ->
  literal t.
Proof.
  intros L. inversion L; subst; try assumption; discriminate.
Qed.

Lemma app_opt_some (pre : string) (r : option string) :
  (exists u, r = Some u) -> exists u, json.app_opt pre r = Some u.
Proof. intros [u ->]. eexists. reflexivity. Qed.

(** [unquote] succeeds on every literal the scanner accepts. *)
Lemma literal_unquote (raw : string) :
  literal raw -> exists u, json.unquote_from 0 raw = Some u.
Proof.
  remember (String.length raw) as n eqn:N. revert raw N.
  induction n as [n IH] using lt_wf_ind. intros raw N L.
  assert (IH' : forall r, (String.length r < String.length raw)%nat ->
                  literal r -> exists u, json.unquote_from 0 r = Some u).
  { intros r Lr Hr. apply (IH (String.length r)); [lia|reflexivity|exact Hr]. }
  clear IH N n.
  inversion L as [|c t Q B C Lt E|e t SE Lt E|h1 h2 h3 h4 t HX Lt E]; subst.
  - eexists. reflexivity.
  - cbn [json.unquote_from]. rewrite B, Q, C. cbn [orb].
    destruct (Z.ltb_spec (byteZ c) utf8.RuneSelf) as [A|A].
    + apply app_opt_some, IH'; [cbn; lia|exact Lt].
    + destruct (utf8.DecodeRuneInString (String c t)) as [rr size] eqn:D.
      apply app_opt_some. rewrite unquote_skip.
      destruct ((rr =? utf8.RuneError) && (size =? 1)%nat) eqn:NV.
      * apply andb_prop in NV. destruct NV as [_ S1].
        apply Nat.eqb_eq in S1. subst size. cbn [Nat.sub skipn_string].
        apply IH'; [cbn; lia|exact Lt].
      * destruct (decode_wellformed c t rr size A D NV)
          as (pre & suf & E & W & S).
        pose proof (literal_after_rune pre suf rr W) as LS.
        rewrite <- E in LS. specialize (LS L).
        assert (K : skipn_string (size - 1) t = suf
                    /\ (String.length suf < String.length (String c t))%nat).
        { subst size. destruct W; cbn [append] in E; injection E as -> ->;
            cbn [String.length Nat.sub skipn_string]; split;
            try reflexivity; lia. }
        destruct K as [-> K]. apply IH'; assumption.
  - cbn [json.unquote_from]. change (Ascii.eqb "\" "\") with true. cbn iota.
    assert (T : exists u, json.unquote_from 1 (String e t) = Some u).
    { cbn [json.unquote_from]. apply IH'; [cbn; lia|exact Lt]. }
    unfold json.simple_escape in SE. cbn [existsb] in SE.
    repeat match goal with
    | |- context [Ascii.eqb e ?x] =>
      destruct (Ascii.eqb e x) eqn:?; cbn [existsb orb];
        try (apply app_opt_some; exact T)
    end.
    all: cbn [orb] in SE; discriminate SE.
  - pose proof (getu4_escape h1 h2 h3 h4 t HX) as G.
    cbn [json.unquote_from]. change (Ascii.eqb "\" "\") with true. cbn iota.
    change (existsb (Ascii.eqb "u") ["\"; "/"; "'"; dquote]%char) with false.
    cbn iota.
    change (Ascii.eqb "u" "b") with false. change (Ascii.eqb "u" "f") with false.
    change (Ascii.eqb "u" "n") with false. change (Ascii.eqb "u" "r") with false.
    change (Ascii.eqb "u" "t") with false. change (Ascii.eqb "u" "u") with true.
    cbn iota.
    match goal with
    | |- context [json.getu4 ?s <? 0] =>
      destruct (Z.ltb_spec (json.getu4 s) 0) as [?|_]; [lia|]
    end.
    assert (T5 : exists u, json.unquote_from 5
                (String "u" (String h1 (String h2 (String h3 (String h4 t)))))
                = Some u).
    { cbn [json.unquote_from]. apply IH'; [cbn; lia|exact Lt]. }
    destruct (json.IsSurrogate _); [|apply app_opt_some; exact T5].
    cbn [skipn_string].
    destruct (negb _) eqn:DEC; [|apply app_opt_some; exact T5].
    apply app_opt_some. cbn [json.unquote_from].
    rewrite unquote_skip.
    assert (G2 : 0 <= json.getu4 t).
    { apply negb_true_iff in DEC. unfold json.utf16_DecodeRune in DEC.
      destruct (_ && _) eqn:R in DEC.
      - apply andb_prop in R. destruct R as [R _].
        apply andb_prop in R. destruct R as [_ R].
        apply Z.leb_le in R. lia.
      - rewrite Z.eqb_refl in DEC. discriminate. }
    destruct (getu4_shape t G2) as (x1 & x2 & x3 & x4 & t' & -> & HX').
    cbn [skipn_string].
    apply IH'; [cbn; lia|]. apply (literal_after_escape _ _ _ _ _ Lt).
Qed.

Lemma scanned_literal_unquotes (s raw rest : string) :
  json.scan_string s = Some (raw, rest) -> json.unquote raw <> None.
Proof.
  intros H. apply scan_string_literal in H.
  destruct (literal_unquote raw H) as [u U]. unfold json.unquote.
  rewrite U. discriminate.
Qed.

(** A string literal is refused by the parser only when the scanner
    refuses it. *)
Lemma parse_string_bad (t : string) :
  json.parse_string t = json.Bad <-> json.scan_string t = None.
Proof.
  unfold json.parse_string.
  destruct (json.scan_string t) as [[raw rest]|] eqn:E.
  - pose proof (scanned_literal_unquotes t raw rest E) as U.
    destruct (json.unquote raw); [|congruence].
    split; discriminate.
  - split; reflexivity.
Qed.

(** ** What the decoder rejects *)

Section Rejection.

Context {T : Type} `{json.Struct T}.

Lemma store_member_keeps_error (x : T) (e : error) (m : string * json.value) :
  snd (json.store_member (x, Some e) m) = Some e.
Proof.
  destruct m as [k v]. unfold json.store_member.
  destruct (json.find_field json.field_names k); [|reflexivity].
  destruct v; reflexivity.
Qed.

Lemma fold_store_keeps_error (ms : list (string * json.value)) (x : T)
  (e : error) :
  snd (fold_left json.store_member ms (x, Some e)) = Some e.
Proof.
  revert x. induction ms as [|m ms IH]; intros x; [reflexivity|].
  cbn [fold_left].
  pose proof (store_member_keeps_error x e m) as K.
  destruct (json.store_member (x, Some e) m) as [x' e']. cbn in K. subst e'.
  apply IH.
Qed.

Lemma store_member_error (x : T) (m : string * json.value) :
  snd (json.store_member (x, None) m) = None <-> ill_typed m = false.
Proof.
  destruct m as [k v]. unfold json.store_member, ill_typed. cbn [fst snd].
  destruct (json.find_field json.field_names k); [|tauto].
  destruct v; cbn; split; intros E; try reflexivity; discriminate.
Qed.

Lemma fold_store_error (ms : list (string * json.value)) (x : T) :
  snd (fold_left json.store_member ms (x, None)) = None
  <-> existsb ill_typed ms = false.
Proof.
  revert x. induction ms as [|m ms IH]; intros x; [cbn; tauto|].
  cbn [fold_left existsb]. rewrite orb_false_iff.
  pose proof (store_member_error x m) as S.
  destruct (json.store_member (x, None) m) as [x' [e|]]; cbn [snd] in S.
  - rewrite fold_store_keeps_error. split.
    + discriminate.
    + intros [I _]. apply S in I. discriminate.
  - rewrite IH. intuition.
Qed.

(** [json.Unmarshal] returns an error exactly on the documents described
    by [rejected]. *)
Lemma Unmarshal_error_iff (data : string) (x : T) :
  snd (json.Unmarshal data x) = None <-> rejected T data = false.
Proof.
  unfold json.Unmarshal, rejected.
  destruct (json.parse data) as [[| | | | |ms]|]; cbn [snd];
    try (split; [discriminate|discriminate]); try tauto.
  apply fold_store_error.
Qed.

(** Members whose keys name no field leave the struct and the saved
    error as they were. *)
Lemma fold_store_unknown
  (ms : list (string * json.value)) (st : T * option error) :
  (forall k v, In (k, v) ms -> json.find_field json.field_names k = None) ->
  fold_left json.store_member ms st = st.
Proof.
  revert st. induction ms as [|[k v] ms IH]; intros st U; [reflexivity|].
  cbn [fold_left]. destruct st as [x e].
  unfold json.store_member at 2. rewrite (U k v) by (left; reflexivity).
  apply IH. intros k' v' I. apply (U k' v'). right. exact I.
Qed.

End Rejection.

(** ** What the decoder stores *)

(** No member names [name]: nothing is stored in that field. *)
Lemma stored_absent {T} `{json.Struct T} (name : string)
  (ms : list (string * json.value)) :
  (forall k x, In (k, x) ms ->
     json.find_field json.field_names k <> Some name) ->
  stored name ms = None.
Proof.
  induction ms as [|[k x] ms IH]; intros A; [reflexivity|].
  cbn [stored]. rewrite IH by (intros k' x' I; apply (A k' x'); right; exact I).
  pose proof (A k x (or_introl eq_refl)) as N.
  destruct (json.find_field json.field_names k) as [n|]; [|reflexivity].
  destruct x; try reflexivity.
  destruct (String.eqb n name) eqn:E; [|reflexivity].
  apply String.eqb_eq in E. subst n. contradiction N. reflexivity.
Qed.

Lemma find_field_response (k : string) :
  json.find_field (json.field_names (T := MessageResponse)) k = None
  \/ json.find_field (json.field_names (T := MessageResponse)) k
     = Some "status"
  \/ json.find_field (json.field_names (T := MessageResponse)) k
     = Some "error_code"
  \/ json.find_field (json.field_names (T := MessageResponse)) k
     = Some "from_number"
  \/ json.find_field (json.field_names (T := MessageResponse)) k
     = Some "message_handle".
Proof.
  unfold json.find_field. cbn [json.field_names MessageResponse_Struct find].
  repeat match goal with
         | |- context [if ?b then _ else _] => destruct b
         end; tauto.
Qed.

Lemma store_member_response (x : MessageResponse) (e : option error)
  (k : string) (v : json.value) :
  Status (fst (json.store_member (x, e) (k, v)))
  = match stored "status" [(k, v)] with Some s => s | None => Status x end
  /\ FromNumber (fst (json.store_member (x, e) (k, v)))
     = match stored "from_number" [(k, v)] with
       | Some s => s
       | None => FromNumber x
       end.
Proof.
  unfold json.store_member. cbn [stored].
  destruct (find_field_response k) as [E|[E|[E|[E|E]]]]; rewrite E;
    destruct v; split; reflexivity.
Qed.

(** The status and the number of a [MessageResponse] after the members of
    an object: what the object stores there, else what was there, whether
    or not a member is ill-typed. *)
Lemma fold_store_response (ms : list (string * json.value))
  (x : MessageResponse) (e : option error) :
  Status (fst (fold_left json.store_member ms (x, e)))
  = match stored "status" ms with Some s => s | None => Status x end
  /\ FromNumber (fst (fold_left json.store_member ms (x, e)))
     = match stored "from_number" ms with
       | Some s => s
       | None => FromNumber x
       end.
Proof.
  revert x e. induction ms as [|[k v] ms IH]; intros x e; [split; reflexivity|].
  cbn [fold_left].
  destruct (store_member_response x e k v) as [S F].
  destruct (json.store_member (x, e) (k, v)) as [x' e'] eqn:M.
  cbn [fst] in S, F.
  destruct (IH x' e') as [S' F']. rewrite S', F', S, F.
  cbn [stored].
  destruct (stored "status" ms), (stored "from_number" ms); split; reflexivity.
Qed.

(** ** Marshal, then Unmarshal, on messages *)

Lemma Marshal_Message_text (m : Message) :
  fst (json.Marshal m)
  = String "{" (String dquote ("number" ++ String dquote (String ":"
      (String dquote (json.escape_from (json.Copy 0) (Number m) ++
         String dquote (String "," (String dquote ("content" ++
           String dquote (String ":" (String dquote
             (json.escape_from (json.Copy 0) (Content m) ++
                String dquote (String "}" EmptyString)))))))))))).
Proof.
  unfold json.Marshal. cbn [fst].
  change (json.marshal_fields json.field_names m)
    with (json.appendString "number" ++ ":" ++ json.appendString (Number m)
          ++ "," ++ json.appendString "content" ++ ":"
          ++ json.appendString (Content m)).
  assert (K1 : json.appendString "number"
               = String dquote ("number" ++ String dquote EmptyString))
    by (vm_compute; reflexivity).
  assert (K2 : json.appendString "content"
               = String dquote ("content" ++ String dquote EmptyString))
    by (vm_compute; reflexivity).
  rewrite K1, K2. unfold json.appendString.
  generalize (json.escape_from (json.Copy 0) (Number m)) as eN.
  generalize (json.escape_from (json.Copy 0) (Content m)) as eC.
  intros eC eN. cbn [append].
  repeat (rewrite !append_assoc; cbn [append]).
  reflexivity.
Qed.

(** The same text, written with the strings [appendString] returns. *)
Lemma Marshal_Message_json (m : Message) :
  fst (json.Marshal m)
  = q "{'number':" ++ json.appendString (Number m)
    ++ q ",'content':" ++ json.appendString (Content m) ++ "}".
Proof.
  rewrite Marshal_Message_text. unfold json.appendString.
  generalize (json.escape_from (json.Copy 0) (Number m)) as eN.
  generalize (json.escape_from (json.Copy 0) (Content m)) as eC.
  intros eC eN.
  change (q "{'number':")
    with (String "{" (String dquote ("number" ++ String dquote ":"))).
  change (q ",'content':")
    with (String "," (String dquote ("content" ++ String dquote ":"))).
  cbn [append]. repeat (rewrite !append_assoc; cbn [append]).
  reflexivity.
Qed.

Lemma parse_value_open_brace (f : nat) (d : N) (t : string) :
  json.parse_value (S f) d (String "{" (String dquote t))
  = if (d <? json.maxNestingDepth)%N
    then json.parse_members f (d + 1)%N (String dquote t) []
    else json.Bad.
Proof. reflexivity. Qed.

Lemma parse_value_quote (f : nat) (d : N) (t : string) :
  json.parse_value (S f) d (String dquote t)
  = match json.parse_string t with
    | json.Ok u rest => json.Ok (json.Str u) rest
    | _ => json.Bad
    end.
Proof. reflexivity. Qed.

Lemma parse_members_quote (f : nat) (d : N) (t : string)
  (acc : list (string * json.value)) :
  json.parse_members (S f) d (String dquote t) acc
  = match json.parse_string t with
    | json.Ok key rest =>
      match json.skip_ws rest with
      | String c1 t1 =>
        if Ascii.eqb c1 ":"%char then
          match json.parse_value f d t1 with
          | json.Ok v rest2 =>
            match json.skip_ws rest2 with
            | String c2 t2 =>
              if Ascii.eqb c2 ","%char then
                json.parse_members f d t2 ((key, v) :: acc)
              else if Ascii.eqb c2 "}"%char then
                json.Ok (json.Object (rev ((key, v) :: acc))) t2
              else json.Bad
            | EmptyString => json.Bad
            end
          | json.Bad => json.Bad
          | json.OutOfFuel => json.OutOfFuel
          end
        else json.Bad
      | EmptyString => json.Bad
      end
    | _ => json.Bad
    end.
Proof. reflexivity. Qed.

Lemma parse_string_number (X : string) :
  json.parse_string
    (String "n" (String "u" (String "m" (String "b" (String "e" (String "r"
       (String dquote X)))))))
  = json.Ok "number" X.
Proof. reflexivity. Qed.

Lemma parse_string_content (X : string) :
  json.parse_string
    (String "c" (String "o" (String "n" (String "t" (String "e" (String "n"
       (String "t" (String dquote X))))))))
  = json.Ok "content" X.
Proof. reflexivity. Qed.

Lemma skip_ws_mark (c : ascii) (t : string) :
  json.isSpace c = false -> json.skip_ws (String c t) = String c t.
Proof. intros H. cbn [json.skip_ws]. rewrite H. reflexivity. Qed.

Lemma parse_Marshal_Message (m : Message) :
  json.parse (fst (json.Marshal m))
  = Some (json.Object [("number", json.Str (coerce (Number m)));
                       ("content", json.Str (coerce (Content m)))]).
Proof.
  unfold json.parse. rewrite Marshal_Message_text.
  pose proof (parse_string_appendString (Number m)) as PN.
  pose proof (parse_string_appendString (Content m)) as PC.
  revert PN PC.
  generalize (json.escape_from (json.Copy 0) (Number m)) as eN.
  generalize (json.escape_from (json.Copy 0) (Content m)) as eC.
  intros eC eN PN PC.
  cbn [String.length append Nat.mul Nat.add].
  rewrite parse_value_open_brace. cbn [N.ltb N.compare json.maxNestingDepth].
  rewrite parse_members_quote.
  rewrite (parse_string_number _).
  rewrite skip_ws_mark by reflexivity. cbn [Ascii.eqb Bool.eqb andb].
  rewrite parse_value_quote, PN.
  rewrite skip_ws_mark by reflexivity. cbn [Ascii.eqb Bool.eqb andb].
  rewrite parse_members_quote.
  rewrite (parse_string_content _).
  rewrite skip_ws_mark by reflexivity. cbn [Ascii.eqb Bool.eqb andb].
  rewrite parse_value_quote, PC.
  rewrite skip_ws_mark by reflexivity. cbn [Ascii.eqb Bool.eqb andb].
  reflexivity.
Qed.

(** What [json.Marshal] writes for a message is valid JSON, whatever
    bytes the message holds. *)
Lemma Marshal_Message_valid (m : Message) :
  json.Valid (fst (json.Marshal m)) = true.
Proof. unfold json.Valid. rewrite parse_Marshal_Message. reflexivity. Qed.

(** Decoding the object that [Marshal] writes for a message gives the
    message back, with its ill-formed bytes replaced. *)
Lemma Unmarshal_Marshal_Message (m : Message) :
  json.Unmarshal (fst (json.Marshal m)) zero_message = (coerce_message m, None).
Proof.
  unfold json.Unmarshal. rewrite parse_Marshal_Message. reflexivity.
Qed.

(** * Properties of the program *)

(** ** The paths of [SendMessage] and of [ReadWebhook] *)

Section Run.

Context {phone : libphonenumber.Lib} {Net : Type}.

Lemma NewRequest_endpoint (buf : string) :
  http.NewRequest "POST" endpoint buf
  = inl {| http.Method := "POST"; http.URL := endpoint;
           http.Headers := []; http.Body := buf |}.
Proof. reflexivity. Qed.

Lemma SendMessage_failed_parse (to body : string) (e : error) (st : @State Net) :
  libphonenumber.Parse to "US" = inr e ->
  SendMessage to body st = ((EmptyString, Some ErrParse), st).
Proof. intros H. unfold SendMessage. rewrite H. reflexivity. Qed.

(** Every path of [SendMessage] after the number has parsed. *)
Lemma SendMessage_run (to body : string) (num : libphonenumber.PhoneNumber)
  (st : @State Net) :
  libphonenumber.Parse to "US" = inl num ->
  let req := request_for (receiver st) num body in
  SendMessage to body st =
  match HTTPClient (receiver st) req (net st) with
  | (inr err, n) =>
    ((EmptyString, Some (wrapError "failed to perform request" err)),
     add_events st n [EvDo req])
  | (inl resp, n) =>
    let r := http.RespBody resp in
    (match rc_err r with
     | Some err =>
       (EmptyString, Some (wrapError "failed to read response body" err))
     | None => interpret (rc_data r)
     end,
     add_events st n [EvDo req; EvReadAll r; EvClose r])
  end.
Proof.
  intros H req. unfold SendMessage. rewrite H.
  cbv beta iota delta [json.Marshal].
  rewrite NewRequest_endpoint.
  unfold bind, field, Do, defer, ReadAll, Close, emit, ret, bind.
  cbn [receiver net trace].
  change (http.set_header _ _ _) with req.
  destruct (HTTPClient (receiver st) req (net st)) as [[resp|err] n];
    [|reflexivity].
  cbn [receiver net trace].
  unfold add_events, interpret, zero_response.
  destruct (rc_err (http.RespBody resp)).
  { cbn [receiver net trace]. rewrite <- !app_assoc. reflexivity. }
  destruct (json.Unmarshal _ _) as [m [e|]].
  { cbn [receiver net trace]. rewrite <- !app_assoc. reflexivity. }
  destruct (String.eqb (Status m) "ERROR");
    cbn [receiver net trace]; rewrite <- !app_assoc; reflexivity.
Qed.

(** With a transport that answers [rbody], the result is the reading of
    [rbody]. *)
Lemma SendMessage_answered (to body rbody : string)
  (num : libphonenumber.PhoneNumber) (st : @State Net) :
  libphonenumber.Parse to "US" = inl num ->
  responds_with (HTTPClient (receiver st)) rbody ->
  fst (SendMessage to body st) = interpret rbody.
Proof.
  intros H R. rewrite (SendMessage_run _ _ num) by exact H.
  destruct (R (request_for (receiver st) num body) (net st))
    as (resp & n' & E & D & F).
  rewrite E. cbn [fst]. rewrite F, D. reflexivity.
Qed.

Lemma requests_app (t1 t2 : list event) :
  requests (t1 ++ t2) = (requests t1 ++ requests t2)%list.
Proof.
  induction t1 as [|[]]; cbn; rewrite ?IHt1; reflexivity.
Qed.

Lemma closed_app (t1 t2 : list event) :
  closed (t1 ++ t2) = (closed t1 ++ closed t2)%list.
Proof.
  induction t1 as [|[]]; cbn; rewrite ?IHt1; reflexivity.
Qed.

(** The two paths of [ReadWebhook] on which the stream was read. *)
Lemma ReadWebhook_read (r : ReadCloser) (st : @State Net) :
  rc_err r = None ->
  ReadWebhook r st =
  (match json.Unmarshal (rc_data r) zero_message with
   | (_, Some err) =>
     (None, Some (wrapError "failed to unmarshal into message" err))
   | (msg, None) => (Some msg, None)
   end,
   add_events st (net st) [EvReadAll r; EvClose r]).
Proof.
  intros H. unfold ReadWebhook, ReadAll, Close, defer, emit, bind, ret.
  rewrite H. unfold zero_message, add_events.
  destruct (json.Unmarshal _ _) as [m [e|]];
    cbn [receiver net trace]; rewrite <- !app_assoc; reflexivity.
Qed.

(** The path of [ReadWebhook] on which reading failed. *)
Lemma ReadWebhook_unread (r : ReadCloser) (e : error) (st : @State Net) :
  rc_err r = Some e ->
  ReadWebhook r st =
  ((None, Some (wrapError "failed to read request body" e)),
   add_events st (net st) [EvReadAll r]).
Proof.
  intros H. unfold ReadWebhook, ReadAll, Close, defer, emit, bind, ret.
  rewrite H. reflexivity.
Qed.

End Run.

(** The reading of a body is the response-parse error exactly when the
    decoder rejects the body. *)
Lemma interpret_parse_error (rbody : string) :
  is_response_parse_error (snd (interpret rbody)) = true
  <-> rejected MessageResponse rbody = true.
Proof.
  pose proof (Unmarshal_error_iff rbody zero_response) as U.
  unfold interpret.
  destruct (json.Unmarshal rbody zero_response) as [m [e|]]; cbn [snd] in *.
  - split; intros _; [|reflexivity].
    destruct (rejected MessageResponse rbody); [reflexivity|].
    destruct U as [_ U]. discriminate (U eq_refl).
  - destruct U as [U _]. rewrite (U eq_refl).
    destruct (String.eqb (Status m) "ERROR"); cbn; split; discriminate.
Qed.

(** ** The claims *)

(** C1. When the phone library fails to parse [to], [SendMessage] returns
    the empty string and [ErrParse], and leaves the state as it was: the
    trace gains no event, so the transport was handed no request. *)
Theorem SendMessage_unparsable_no_request {phone : libphonenumber.Lib} {Net : Type}
  (to body : string) (e : error) (st : @State Net) :
  libphonenumber.Parse to "US" = inr e ->
  fst (SendMessage to body st) = (EmptyString, Some ErrParse)
  /\ snd (SendMessage to body st) = st
  /\ requests (trace (snd (SendMessage to body st))) = requests (trace st).
Proof.
  intros H. rewrite (SendMessage_failed_parse _ _ e) by exact H.
  repeat split.
Qed.

(** C1 on "abc", which the stand-in library does not parse. *)
Lemma SendMessage_unparsable_no_request_witness :
  fst (SendMessage (phone := ten_digits) "abc" "hi"
         (start (example_client "{}")))
  = (EmptyString, Some ErrParse)
  /\ snd (SendMessage (phone := ten_digits) "abc" "hi"
            (start (example_client "{}")))
     = start (example_client "{}")
  /\ requests (trace (snd (SendMessage (phone := ten_digits) "abc" "hi"
                             (start (example_client "{}")))))
     = requests (trace (start (example_client "{}"))).
Proof.
  apply (SendMessage_unparsable_no_request (phone := ten_digits) "abc" "hi"
           (errorString "the phone number supplied is not a number")).
  reflexivity.
Defined.

(** C2. On a stream whose reading fails, [ReadWebhook] returns the read
    error and never closes the stream: the trace holds the read and no
    close. *)
Theorem ReadWebhook_read_failure_leaves_stream_open :
  ReadWebhook broken_stream (start (example_client "{}"))
  = ((None, Some (wrapError "failed to read request body"
                    (errorString "unexpected EOF"))),
     add_events (start (example_client "{}")) O [EvReadAll broken_stream])
  /\ closed (trace (snd (ReadWebhook broken_stream
                           (start (example_client "{}"))))) = [].
Proof. split; reflexivity. Qed.

(** On the paths where the stream was read, [ReadWebhook] closes it,
    whether the decoding succeeds or fails; and [SendMessage] closes the
    body of every response it receives, whether reading it succeeds or
    fails. *)
Lemma ReadWebhook_closes_after_read {Net : Type} (r : ReadCloser)
  (st : @State Net) :
  rc_err r = None ->
  closed (trace (snd (ReadWebhook r st))) = (closed (trace st) ++ [r])%list.
Proof.
  intros H. rewrite ReadWebhook_read by exact H.
  cbn [snd add_events trace]. rewrite closed_app. reflexivity.
Qed.

Lemma ReadWebhook_open_after_failed_read {Net : Type} (r : ReadCloser)
  (e : error) (st : @State Net) :
  rc_err r = Some e ->
  closed (trace (snd (ReadWebhook r st))) = closed (trace st).
Proof.
  intros H. rewrite (ReadWebhook_unread r e) by exact H.
  cbn [snd add_events trace]. rewrite closed_app. cbn. apply app_nil_r.
Qed.

Lemma SendMessage_closes_body {phone : libphonenumber.Lib} {Net : Type}
  (to body : string) (num : libphonenumber.PhoneNumber)
  (resp : http.Response) (n : Net) (st : @State Net) :
  libphonenumber.Parse to "US" = inl num ->
  HTTPClient (receiver st) (request_for (receiver st) num body) (net st)
  = (inl resp, n) ->
  closed (trace (snd (SendMessage to body st)))
  = (closed (trace st) ++ [http.RespBody resp])%list.
Proof.
  intros H E. rewrite (SendMessage_run _ _ num) by exact H. rewrite E.
  cbn [snd add_events trace]. rewrite closed_app. reflexivity.
Qed.

(** C3. If the phone library parses "555-123-4567" and the transport
    answers with the body
    [{"status":"OK","from_number":"+15557654321","message_handle":"abc123"}],
    then [SendMessage "555-123-4567" "hi"] returns "+15557654321" and no
    error. *)
Theorem SendMessage_ok_returns_from_number {phone : libphonenumber.Lib} {Net : Type}
  (num : libphonenumber.PhoneNumber) (st : @State Net) :
  libphonenumber.Parse "555-123-4567" "US" = inl num ->
  responds_with (HTTPClient (receiver st))
    (q "{'status':'OK','from_number':'+15557654321','message_handle':'abc123'}") ->
  fst (SendMessage "555-123-4567" "hi" st) = ("+15557654321", None).
Proof.
  intros H R. rewrite (SendMessage_answered _ _ _ num st H R).
  vm_compute. reflexivity.
Qed.

(** C3 with the stand-in library and a transport that answers the body
    of the claim. *)
Lemma SendMessage_ok_returns_from_number_witness :
  fst (SendMessage (phone := ten_digits) "555-123-4567" "hi"
         (start (example_client
            (q "{'status':'OK','from_number':'+15557654321','message_handle':'abc123'}"))))
  = ("+15557654321", None).
Proof.
  apply (SendMessage_ok_returns_from_number (phone := ten_digits) "5551234567").
  - reflexivity.
  - intros req n. do 2 eexists. repeat split.
Defined.

(** C4, amended. When [to] parses and the transport answers a body that
    the decoder accepts and whose decoded status is "ERROR",
    [SendMessage] returns the empty string and the send-failed error. *)
Theorem SendMessage_remote_error {phone : libphonenumber.Lib} {Net : Type}
  (to body rbody : string) (num : libphonenumber.PhoneNumber)
  (st : @State Net) :
  libphonenumber.Parse to "US" = inl num ->
  responds_with (HTTPClient (receiver st)) rbody ->
  rejected MessageResponse rbody = false ->
  Status (fst (json.Unmarshal rbody zero_response)) = "ERROR" ->
  fst (SendMessage to body st) = (EmptyString, Some send_failed).
Proof.
  intros P R J E. rewrite (SendMessage_answered _ _ _ num st P R).
  apply (Unmarshal_error_iff rbody zero_response) in J.
  unfold interpret.
  destruct (json.Unmarshal rbody zero_response) as [m [e|]];
    cbn [fst snd] in *; [discriminate|].
  rewrite E. reflexivity.
Qed.

(** C4 on the body of the claim. *)
Lemma SendMessage_remote_error_witness :
  fst (SendMessage (phone := ten_digits) "555-123-4567" "hi"
         (start (example_client (q "{'status':'ERROR','error_code':'E1'}"))))
  = (EmptyString, Some send_failed).
Proof.
  apply (SendMessage_remote_error (phone := ten_digits)
           "555-123-4567" "hi" (q "{'status':'ERROR','error_code':'E1'}")
           "5551234567").
  - reflexivity.
  - intros req n. do 2 eexists. repeat split.
  - reflexivity.
  - reflexivity.
Defined.

(** C4 as stated fails on a body that is valid JSON with status "ERROR"
    and a numeric error code: the decoder rejects it, and [SendMessage]
    returns the response-parse error, not the send-failed error. *)
Lemma remote_error_with_numeric_code :
  json.parse (q "{'status':'ERROR','error_code':1}")
  = Some (json.Object [("status", json.Str "ERROR");
                       ("error_code", json.Number "1")])
  /\ member "status" [("status", json.Str "ERROR");
                      ("error_code", json.Number "1")]
     = Some (json.Str "ERROR")
  /\ fst (SendMessage (phone := ten_digits) "555-123-4567" "hi"
            (start (example_client (q "{'status':'ERROR','error_code':1}"))))
     = (EmptyString,
        Some (wrapError "failed to unmarshal response body"
                (UnmarshalTypeError "number" "MessageResponse" "error_code")))
  /\ fst (SendMessage (phone := ten_digits) "555-123-4567" "hi"
            (start (example_client (q "{'status':'ERROR','error_code':1}"))))
     <> (EmptyString, Some send_failed).
Proof.
  repeat split. discriminate.
Qed.

(** C5. When [to] parses, [SendMessage] hands the transport exactly one
    request. Its method is POST, its URL the endpoint, its headers carry
    the API key, the secret key and the JSON content type, and its body is
    what [json.Marshal] writes for the message made of the number in E.164
    format and of [body]: an object with the members [number] and
    [content], in this order, which is valid JSON. *)
Theorem SendMessage_one_post {phone : libphonenumber.Lib} {Net : Type}
  (to body : string) (num : libphonenumber.PhoneNumber) (st : @State Net) :
  libphonenumber.Parse to "US" = inl num ->
  exists req,
    requests (trace (snd (SendMessage to body st)))
    = (requests (trace st) ++ [req])%list
    /\ http.Method req = "POST"
    /\ http.URL req = endpoint
    /\ http.Header_Get (http.Headers req) "sb-api-key-id" = APIKey (receiver st)
    /\ http.Header_Get (http.Headers req) "sb-api-secret-key"
       = SecretKey (receiver st)
    /\ http.Header_Get (http.Headers req) "Content-Type" = "application/json"
    /\ List.length (http.Headers req) = 3%nat
    /\ http.Body req
       = fst (json.Marshal
                {| Number := libphonenumber.Format num libphonenumber.E164;
                   Content := body |})
    /\ http.Body req
       = q "{'number':"
         ++ json.appendString (libphonenumber.Format num libphonenumber.E164)
         ++ q ",'content':" ++ json.appendString body ++ "}"
    /\ json.Valid (http.Body req) = true.
Proof.
  intros H. exists (request_for (receiver st) num body).
  split; [|repeat split].
  - rewrite (SendMessage_run _ _ num) by exact H.
    destruct (HTTPClient _ _ _) as [[resp|err] n]; cbn [snd add_events trace];
      rewrite requests_app; reflexivity.
  - apply Marshal_Message_json.
  - apply Marshal_Message_valid.
Qed.

(** C5 with the stand-in library. *)
Lemma SendMessage_one_post_witness :
  exists req,
    requests (trace (snd (SendMessage (phone := ten_digits) "555-123-4567" "hi"
                            (start (example_client "{}")))))
    = [req]
    /\ http.Method req = "POST"
    /\ http.URL req = endpoint
    /\ http.Header_Get (http.Headers req) "sb-api-key-id" = "key"
    /\ http.Header_Get (http.Headers req) "sb-api-secret-key" = "secret"
    /\ http.Header_Get (http.Headers req) "Content-Type" = "application/json"
    /\ List.length (http.Headers req) = 3%nat
    /\ http.Body req
       = fst (json.Marshal {| Number := "+15551234567"; Content := "hi" |})
    /\ http.Body req = q "{'number':'+15551234567','content':'hi'}"
    /\ json.Valid (http.Body req) = true.
Proof.
  apply (SendMessage_one_post (phone := ten_digits) "555-123-4567" "hi"
           "5551234567" (start (example_client "{}"))).
  reflexivity.
Defined.

(** C6, amended. When [to] parses and the transport answers [rbody],
    [SendMessage] returns the response-parse error exactly when the
    decoder rejects [rbody]: when it is not valid JSON, or its value is
    neither an object nor [null], or a member whose key names a field of
    [MessageResponse] holds a value that is neither a string nor [null].
    It then returns no number. *)
Theorem response_parse_error_iff_rejected {phone : libphonenumber.Lib} {Net : Type}
  (to body rbody : string) (num : libphonenumber.PhoneNumber)
  (st : @State Net) :
  libphonenumber.Parse to "US" = inl num ->
  responds_with (HTTPClient (receiver st)) rbody ->
  (is_response_parse_error (snd (fst (SendMessage to body st))) = true
   <-> rejected MessageResponse rbody = true)
  /\ (rejected MessageResponse rbody = true ->
      fst (fst (SendMessage to body st)) = EmptyString).
Proof.
  intros P R. rewrite (SendMessage_answered _ _ _ num st P R).
  split; [apply interpret_parse_error|].
  intros J. pose proof (Unmarshal_error_iff rbody zero_response) as U.
  unfold interpret.
  destruct (json.Unmarshal rbody zero_response) as [m [e|]]; [reflexivity|].
  destruct U as [U _]. rewrite (U eq_refl) in J. discriminate.
Qed.

(** C6 on the body "not json". *)
Lemma response_parse_error_iff_rejected_witness :
  (is_response_parse_error
     (snd (fst (SendMessage (phone := ten_digits) "555-123-4567" "hi"
                  (start (example_client "not json"))))) = true
   <-> rejected MessageResponse "not json" = true)
  /\ (rejected MessageResponse "not json" = true ->
      fst (fst (SendMessage (phone := ten_digits) "555-123-4567" "hi"
                  (start (example_client "not json")))) = EmptyString).
Proof.
  apply (response_parse_error_iff_rejected (phone := ten_digits)
           "555-123-4567" "hi" "not json" "5551234567").
  - reflexivity.
  - intros req n. do 2 eexists. repeat split.
Defined.

Example not_json_is_rejected :
  rejected MessageResponse "not json" = true
  /\ fst (SendMessage (phone := ten_digits) "555-123-4567" "hi"
            (start (example_client "not json")))
     = (EmptyString,
        Some (wrapError "failed to unmarshal response body" SyntaxError)).
Proof. split; reflexivity. Qed.

(** C6 as stated fails on the empty object: it is valid JSON, it has
    none of the four members of the response shape, and [SendMessage]
    returns no response-parse error for it (it returns success). *)
Lemma response_parse_error_not_on_shape_mismatch :
  json.parse "{}" = Some (json.Object [])
  /\ spec_response_shape (json.Object []) = false
  /\ fst (SendMessage (phone := ten_digits) "555-123-4567" "hi"
            (start (example_client "{}")))
     = (EmptyString, None)
  /\ ~ (is_response_parse_error
          (snd (fst (SendMessage (phone := ten_digits) "555-123-4567" "hi"
                       (start (example_client "{}"))))) = true
        <-> (json.Valid "{}" = false
             \/ spec_response_shape (json.Object []) = false)).
Proof.
  repeat split.
  intros [_ I]. specialize (I (or_intror eq_refl)). discriminate.
Qed.

(** C7, amended. For every message whose number and content are valid
    UTF-8, [ReadWebhook] on a stream that holds the JSON of the message
    returns the message and no error. *)
Theorem ReadWebhook_Marshal_roundtrip {Net : Type} (m : Message) (id : nat)
  (st : @State Net) :
  utf8.ValidString (Number m) = true ->
  utf8.ValidString (Content m) = true ->
  fst (ReadWebhook {| rc_id := id; rc_data := fst (json.Marshal m);
                      rc_err := None |} st)
  = (Some m, None).
Proof.
  intros VN VC. rewrite ReadWebhook_read by reflexivity.
  cbn [fst rc_data]. rewrite Unmarshal_Marshal_Message.
  unfold coerce_message. rewrite !coerce_valid by assumption.
  destruct m. reflexivity.
Qed.

(** Without the condition, what comes back is the message with each
    ill-formed byte replaced by U+FFFD. *)
Lemma ReadWebhook_Marshal_coerces {Net : Type} (m : Message) (id : nat)
  (st : @State Net) :
  fst (ReadWebhook {| rc_id := id; rc_data := fst (json.Marshal m);
                      rc_err := None |} st)
  = (Some (coerce_message m), None).
Proof.
  rewrite ReadWebhook_read by reflexivity.
  cbn [fst rc_data]. rewrite Unmarshal_Marshal_Message. reflexivity.
Qed.

(** C7 on a message with a letter of two bytes and with characters the
    encoder escapes. *)
Lemma ReadWebhook_Marshal_roundtrip_witness :
  fst (ReadWebhook
         {| rc_id := 0;
            rc_data := fst (json.Marshal
                              {| Number := "+15551234567";
                                 Content := String "195" (String "169" (q "<'a'>\")) |});
            rc_err := None |}
         (start (example_client "{}")))
  = (Some {| Number := "+15551234567";
             Content := String "195" (String "169" (q "<'a'>\")) |}, None).
Proof.
  apply (ReadWebhook_Marshal_roundtrip
           {| Number := "+15551234567";
              Content := String "195" (String "169" (q "<'a'>\")) |} 0
           (start (example_client "{}"))); reflexivity.
Defined.

(** C7 as stated fails on a message whose number is the single byte 255,
    which is not valid UTF-8: the encoder writes the escape of U+FFFD for
    it, and the decoder returns the three bytes of U+FFFD. *)
Lemma roundtrip_fails_on_ill_formed_bytes :
  fst (json.Marshal {| Number := String "255" EmptyString; Content := EmptyString |})
  = q "{'number':'" ++ json.replacement_escape ++ q "','content':''}"
  /\ fst (ReadWebhook
            {| rc_id := 0;
               rc_data := fst (json.Marshal
                                 {| Number := String "255" EmptyString;
                                    Content := EmptyString |});
               rc_err := None |}
            (start (example_client "{}")))
     = (Some {| Number := String "239" (String "191" (String "189" EmptyString));
                Content := EmptyString |}, None)
  /\ fst (ReadWebhook
            {| rc_id := 0;
               rc_data := fst (json.Marshal
                                 {| Number := String "255" EmptyString;
                                    Content := EmptyString |});
               rc_err := None |}
            (start (example_client "{}")))
     <> (Some {| Number := String "255" EmptyString; Content := EmptyString |},
         None).
Proof.
  split; [reflexivity|]. split; [reflexivity|].
  intros E. discriminate E.
Qed.

(** C9. [SendMessage] leaves the [Client] it is called on as it was, on
    every path: its API key, its secret key and its transport are the
    same after the call as before. *)
Theorem SendMessage_preserves_client {phone : libphonenumber.Lib} {Net : Type}
  (to body : string) (st : @State Net) :
  receiver (snd (SendMessage to body st)) = receiver st
  /\ APIKey (receiver (snd (SendMessage to body st))) = APIKey (receiver st)
  /\ SecretKey (receiver (snd (SendMessage to body st))) = SecretKey (receiver st)
  /\ HTTPClient (receiver (snd (SendMessage to body st)))
     = HTTPClient (receiver st).
Proof.
  assert (E : receiver (snd (SendMessage to body st)) = receiver st).
  { destruct (libphonenumber.Parse to "US") as [num|e] eqn:H.
    - rewrite (SendMessage_run _ _ num) by exact H.
      destruct (HTTPClient _ _ _) as [[resp|err] n]; reflexivity.
    - rewrite (SendMessage_failed_parse _ _ e) by exact H. reflexivity. }
  rewrite E. repeat split.
Qed.



(** C10 on [null]. *)
Example SendMessage_null_succeeds :
  fst (SendMessage (phone := ten_digits) "555-123-4567" "hi"
         (start (example_client "null")))
  = (EmptyString, None).
Proof. reflexivity. Qed.

(** * Further properties of the program *)

(** ** [SendMessage]: the paths after the request *)

(** The receiver after a call, on every path. *)
Lemma SendMessage_receiver {phone : libphonenumber.Lib} {Net : Type}
  (to body : string) (st : @State Net) :
  receiver (snd (SendMessage to body st)) = receiver st.
Proof.
  destruct (libphonenumber.Parse to "US") as [num|e] eqn:H.
  - rewrite (SendMessage_run _ _ num) by exact H.
    destruct (HTTPClient _ _ _) as [[resp|err] n]; reflexivity.
  - rewrite (SendMessage_failed_parse _ _ e) by exact H. reflexivity.
Qed.

(** X1. When [to] parses and the transport fails with [err],
    [SendMessage] returns the empty string and [err] wrapped as "failed to
    perform request"; the request is the only event: nothing is read and
    nothing is closed, and the network is as the transport left it. *)
Theorem SendMessage_transport_failure {phone : libphonenumber.Lib} {Net : Type}
  (to body : string) (num : libphonenumber.PhoneNumber) (err : error)
  (n : Net) (st : @State Net) :
  libphonenumber.Parse to "US" = inl num ->
  HTTPClient (receiver st) (request_for (receiver st) num body) (net st)
  = (inr err, n) ->
  fst (SendMessage to body st)
  = (EmptyString, Some (wrapError "failed to perform request" err))
  /\ trace (snd (SendMessage to body st))
     = (trace st ++ [EvDo (request_for (receiver st) num body)])%list
  /\ net (snd (SendMessage to body st)) = n.
Proof.
  intros H E. rewrite (SendMessage_run _ _ num) by exact H. rewrite E.
  repeat split.
Qed.

Lemma SendMessage_transport_failure_witness :
  fst (SendMessage (phone := ten_digits) "555-123-4567" "hi"
         (start (NewCustomClient (refusing (errorString "dial tcp: timeout"))
                   "key" "secret")))
  = (EmptyString,
     Some (wrapError "failed to perform request"
             (errorString "dial tcp: timeout")))
  /\ trace (snd (SendMessage (phone := ten_digits) "555-123-4567" "hi"
                   (start (NewCustomClient
                             (refusing (errorString "dial tcp: timeout"))
                             "key" "secret"))))
     = [EvDo (request_for
                (NewCustomClient (refusing (errorString "dial tcp: timeout"))
                   "key" "secret") "5551234567" "hi")]
  /\ net (snd (SendMessage (phone := ten_digits) "555-123-4567" "hi"
                 (start (NewCustomClient
                           (refusing (errorString "dial tcp: timeout"))
                           "key" "secret"))))
     = 1%nat.
Proof.
  apply (SendMessage_transport_failure (phone := ten_digits)
           "555-123-4567" "hi" "5551234567"
           (errorString "dial tcp: timeout") 1%nat
           (start (NewCustomClient (refusing (errorString "dial tcp: timeout"))
                     "key" "secret"))); reflexivity.
Defined.

(** X2. When [to] parses, the transport returns a response and reading
    its body fails with [err], [SendMessage] returns the empty string and
    [err] wrapped as "failed to read response body", whatever bytes were
    read before the failure. *)
Theorem SendMessage_read_failure {phone : libphonenumber.Lib} {Net : Type}
  (to body : string) (num : libphonenumber.PhoneNumber)
  (resp : http.Response) (err : error) (n : Net) (st : @State Net) :
  libphonenumber.Parse to "US" = inl num ->
  HTTPClient (receiver st) (request_for (receiver st) num body) (net st)
  = (inl resp, n) ->
  rc_err (http.RespBody resp) = Some err ->
  fst (SendMessage to body st)
  = (EmptyString, Some (wrapError "failed to read response body" err)).
Proof.
  intros H E R. rewrite (SendMessage_run _ _ num) by exact H. rewrite E.
  cbn [fst]. rewrite R. reflexivity.
Qed.

Lemma SendMessage_read_failure_witness :
  fst (SendMessage (phone := ten_digits) "555-123-4567" "hi"
         (start (NewCustomClient
                   (answering_with 200 (q "{'status':'OK'}")
                      (Some (errorString "unexpected EOF")))
                   "key" "secret")))
  = (EmptyString,
     Some (wrapError "failed to read response body"
             (errorString "unexpected EOF"))).
Proof.
  apply (SendMessage_read_failure (phone := ten_digits)
           "555-123-4567" "hi" "5551234567"
           {| http.StatusCode := 200;
              http.RespBody := {| rc_id := 0; rc_data := q "{'status':'OK'}";
                                  rc_err := Some (errorString "unexpected EOF") |} |}
           (errorString "unexpected EOF") 1%nat); reflexivity.
Defined.

(** X3. When [to] parses and the transport returns a response,
    [SendMessage] does exactly three things, in this order: it performs
    the request, reads the body of the response, and closes that body;
    this holds whether the reading and the decoding succeed or fail. *)
Theorem SendMessage_reads_then_closes {phone : libphonenumber.Lib} {Net : Type}
  (to body : string) (num : libphonenumber.PhoneNumber)
  (resp : http.Response) (n : Net) (st : @State Net) :
  libphonenumber.Parse to "US" = inl num ->
  HTTPClient (receiver st) (request_for (receiver st) num body) (net st)
  = (inl resp, n) ->
  trace (snd (SendMessage to body st))
  = (trace st ++ [EvDo (request_for (receiver st) num body);
                  EvReadAll (http.RespBody resp);
                  EvClose (http.RespBody resp)])%list.
Proof.
  intros H E. rewrite (SendMessage_run _ _ num) by exact H. rewrite E.
  reflexivity.
Qed.

Lemma SendMessage_reads_then_closes_witness :
  trace (snd (SendMessage (phone := ten_digits) "555-123-4567" "hi"
                (start (example_client "not json"))))
  = [EvDo (request_for (example_client "not json") "5551234567" "hi");
     EvReadAll {| rc_id := 0; rc_data := "not json"; rc_err := None |};
     EvClose {| rc_id := 0; rc_data := "not json"; rc_err := None |}].
Proof.
  apply (SendMessage_reads_then_closes (phone := ten_digits)
           "555-123-4567" "hi" "5551234567"
           {| http.StatusCode := 200;
              http.RespBody := {| rc_id := 0; rc_data := "not json";
                                  rc_err := None |} |}
           1%nat (start (example_client "not json"))); reflexivity.
Defined.

(** X4. Whenever [SendMessage] returns an error, the number it returns is
    the empty string: on no path does it return both a number and an
    error. *)
Theorem SendMessage_error_means_no_number {phone : libphonenumber.Lib}
  {Net : Type} (to body : string) (st : @State Net) :
  snd (fst (SendMessage to body st)) <> None ->
  fst (fst (SendMessage to body st)) = EmptyString.
Proof.
  destruct (libphonenumber.Parse to "US") as [num|e] eqn:H.
  - rewrite (SendMessage_run _ _ num) by exact H.
    destruct (HTTPClient _ _ _) as [[resp|err] n]; [|reflexivity].
    cbn [fst]. destruct (rc_err (http.RespBody resp)); [reflexivity|].
    unfold interpret.
    destruct (json.Unmarshal _ _) as [m [e|]]; [reflexivity|].
    destruct (String.eqb (Status m) "ERROR"); [reflexivity|].
    cbn [fst snd]. intros N. contradiction N. reflexivity.
  - rewrite (SendMessage_failed_parse _ _ e) by exact H. reflexivity.
Qed.

Lemma SendMessage_error_means_no_number_witness :
  fst (fst (SendMessage (phone := ten_digits) "555-123-4567" "hi"
              (start (example_client
                        (q "{'status':'ERROR','from_number':'+15557654321'}")))))
  = EmptyString.
Proof.
  apply (SendMessage_error_means_no_number (phone := ten_digits)).
  discriminate.
Defined.

(** X5. When [to] parses, the transport returns a response whose body is
    read to the end and decodes without error to a response whose status
    is anything but "ERROR" (the comparison is exact), [SendMessage]
    returns the decoded [from_number], as it is, and no error. *)
Theorem SendMessage_success {phone : libphonenumber.Lib} {Net : Type}
  (to body : string) (num : libphonenumber.PhoneNumber)
  (resp : http.Response) (n : Net) (mresp : MessageResponse)
  (st : @State Net) :
  libphonenumber.Parse to "US" = inl num ->
  HTTPClient (receiver st) (request_for (receiver st) num body) (net st)
  = (inl resp, n) ->
  rc_err (http.RespBody resp) = None ->
  json.Unmarshal (rc_data (http.RespBody resp)) zero_response = (mresp, None) ->
  Status mresp <> "ERROR" ->
  fst (SendMessage to body st) = (FromNumber mresp, None).
Proof.
  intros H E R U S. rewrite (SendMessage_run _ _ num) by exact H. rewrite E.
  cbn [fst]. rewrite R. unfold interpret. rewrite U.
  destruct (String.eqb_spec (Status mresp) "ERROR"); [contradiction|reflexivity].
Qed.

Lemma SendMessage_success_witness :
  fst (SendMessage (phone := ten_digits) "555-123-4567" "hi"
         (start (example_client (q "{'status':'error','from_number':'n/a'}"))))
  = ("n/a", None).
Proof.
  apply (SendMessage_success (phone := ten_digits)
           "555-123-4567" "hi" "5551234567"
           {| http.StatusCode := 200;
              http.RespBody :=
                {| rc_id := 0;
                   rc_data := q "{'status':'error','from_number':'n/a'}";
                   rc_err := None |} |}
           1%nat
           {| Status := "error"; ErrorCode := EmptyString;
              FromNumber := "n/a"; MessageHandle := EmptyString |});
    try reflexivity.
  discriminate.
Defined.

(** X6. [SendMessage] returns [ErrParse] exactly when the phone library
    fails to parse [to]: no failure of the transport, of the reading, of
    the decoding or of the remote service is reported as [ErrParse]. *)
Theorem SendMessage_ErrParse_iff {phone : libphonenumber.Lib} {Net : Type}
  (to body : string) (st : @State Net) :
  snd (fst (SendMessage to body st)) = Some ErrParse
  <-> exists e, libphonenumber.Parse to "US" = inr e.
Proof.
  destruct (libphonenumber.Parse to "US") as [num|e] eqn:H.
  - split; [|intros [e E]; discriminate E].
    rewrite (SendMessage_run _ _ num) by exact H.
    destruct (HTTPClient _ _ _) as [[resp|err] n]; [|discriminate].
    cbn [fst]. destruct (rc_err (http.RespBody resp)); [discriminate|].
    unfold interpret.
    destruct (json.Unmarshal _ _) as [m [e|]]; [discriminate|].
    destruct (String.eqb (Status m) "ERROR"); discriminate.
  - rewrite (SendMessage_failed_parse _ _ e) by exact H.
    split; [intros _; exists e; reflexivity|reflexivity].
Qed.

(** X7. The status code of the response plays no part: two calls that
    parse their numbers and receive responses whose bodies read the same
    return the same number and error, whatever the two status codes. *)
Theorem SendMessage_ignores_status_code {phone : libphonenumber.Lib}
  {Net : Type} (to1 body1 to2 body2 : string)
  (num1 num2 : libphonenumber.PhoneNumber)
  (resp1 resp2 : http.Response) (n1 n2 : Net) (st1 st2 : @State Net) :
  libphonenumber.Parse to1 "US" = inl num1 ->
  libphonenumber.Parse to2 "US" = inl num2 ->
  HTTPClient (receiver st1) (request_for (receiver st1) num1 body1) (net st1)
  = (inl resp1, n1) ->
  HTTPClient (receiver st2) (request_for (receiver st2) num2 body2) (net st2)
  = (inl resp2, n2) ->
  rc_data (http.RespBody resp1) = rc_data (http.RespBody resp2) ->
  rc_err (http.RespBody resp1) = rc_err (http.RespBody resp2) ->
  fst (SendMessage to1 body1 st1) = fst (SendMessage to2 body2 st2).
Proof.
  intros H1 H2 E1 E2 D R.
  rewrite (SendMessage_run _ _ num1) by exact H1.
  rewrite (SendMessage_run _ _ num2) by exact H2.
  rewrite E1, E2. cbn [fst]. rewrite D, R. reflexivity.
Qed.

Lemma SendMessage_ignores_status_code_witness :
  fst (SendMessage (phone := ten_digits) "555-123-4567" "hi"
         (start (NewCustomClient
                   (answering_with 200 (q "{'from_number':'+15557654321'}") None)
                   "key" "secret")))
  = fst (SendMessage (phone := ten_digits) "(555) 765-4321" "bye"
           (start (NewCustomClient
                     (answering_with 500 (q "{'from_number':'+15557654321'}") None)
                     "other" "pair"))).
Proof.
  apply (SendMessage_ignores_status_code (phone := ten_digits)
           "555-123-4567" "hi" "(555) 765-4321" "bye"
           "5551234567" "5557654321"
           {| http.StatusCode := 200;
              http.RespBody := {| rc_id := 0;
                                  rc_data := q "{'from_number':'+15557654321'}";
                                  rc_err := None |} |}
           {| http.StatusCode := 500;
              http.RespBody := {| rc_id := 0;
                                  rc_data := q "{'from_number':'+15557654321'}";
                                  rc_err := None |} |}
           1%nat 1%nat); reflexivity.
Defined.

(** ** [SendMessage]: the request *)

(** X8. The body of the request is one JSON object with exactly the two
    members [number] and [content], whatever bytes [body] holds: quotes,
    backslashes, braces or control characters in [body] end up inside the
    string of [content] and add no member. The strings are those given,
    with ill-formed UTF-8 bytes replaced by U+FFFD. *)
Theorem SendMessage_body_is_one_object {phone : libphonenumber.Lib} {Net : Type}
  (to body : string) (num : libphonenumber.PhoneNumber) (st : @State Net) :
  libphonenumber.Parse to "US" = inl num ->
  exists req,
    requests (trace (snd (SendMessage to body st)))
    = (requests (trace st) ++ [req])%list
    /\ json.parse (http.Body req)
       = Some (json.Object
                 [("number",
                   json.Str (coerce (libphonenumber.Format num
                                       libphonenumber.E164)));
                  ("content", json.Str (coerce body))]).
Proof.
  intros H. exists (request_for (receiver st) num body). split.
  - rewrite (SendMessage_run _ _ num) by exact H.
    destruct (HTTPClient _ _ _) as [[resp|err] n]; cbn [snd add_events trace];
      rewrite requests_app; reflexivity.
  - apply (parse_Marshal_Message
             {| Number := libphonenumber.Format num libphonenumber.E164;
                Content := body |}).
Qed.

Lemma SendMessage_body_is_one_object_witness :
  exists req,
    requests (trace (snd (SendMessage (phone := ten_digits) "555-123-4567"
                            (q "','status':'x'}")
                            (start (example_client "{}")))))
    = [req]
    /\ json.parse (http.Body req)
       = Some (json.Object [("number", json.Str "+15551234567");
                            ("content", json.Str (q "','status':'x'}"))]).
Proof.
  apply (SendMessage_body_is_one_object (phone := ten_digits)
           "555-123-4567" (q "','status':'x'}") "5551234567"
           (start (example_client "{}"))).
  reflexivity.
Defined.

(** X9. What [SendMessage] sends, [ReadWebhook] reads back: on a stream
    that holds the body of the request, [ReadWebhook] returns the message
    made of the number in E.164 format and of [body] (ill-formed UTF-8
    bytes replaced by U+FFFD), and no error. *)
Theorem SendMessage_then_ReadWebhook {phone : libphonenumber.Lib} {Net : Type}
  (to body : string) (num : libphonenumber.PhoneNumber) (st : @State Net) :
  libphonenumber.Parse to "US" = inl num ->
  exists req,
    requests (trace (snd (SendMessage to body st)))
    = (requests (trace st) ++ [req])%list
    /\ forall (id : nat) (st' : @State Net),
         fst (ReadWebhook {| rc_id := id; rc_data := http.Body req;
                             rc_err := None |} st')
         = (Some {| Number := coerce (libphonenumber.Format num
                                        libphonenumber.E164);
                    Content := coerce body |}, None).
Proof.
  intros H. exists (request_for (receiver st) num body). split.
  - rewrite (SendMessage_run _ _ num) by exact H.
    destruct (HTTPClient _ _ _) as [[resp|err] n]; cbn [snd add_events trace];
      rewrite requests_app; reflexivity.
  - intros id st'. rewrite ReadWebhook_read by reflexivity.
    cbn [fst rc_data request_for http.Body].
    rewrite Unmarshal_Marshal_Message. reflexivity.
Qed.

Lemma SendMessage_then_ReadWebhook_witness :
  exists req,
    requests (trace (snd (SendMessage (phone := ten_digits) "555-123-4567" "hi"
                            (start (example_client "{}")))))
    = [req]
    /\ forall (id : nat) (st' : @State nat),
         fst (ReadWebhook {| rc_id := id; rc_data := http.Body req;
                             rc_err := None |} st')
         = (Some {| Number := "+15551234567"; Content := "hi" |}, None).
Proof.
  apply (SendMessage_then_ReadWebhook (phone := ten_digits)
           "555-123-4567" "hi" "5551234567" (start (example_client "{}"))).
  reflexivity.
Defined.

(** X10. A [Client] can be used again after any call: whatever the first
    call was and however it ended, a second call whose number parses
    hands the transport one more request, built from the keys the client
    had before the first call. *)
Theorem SendMessage_reuse {phone : libphonenumber.Lib} {Net : Type}
  (to1 body1 to2 body2 : string) (num2 : libphonenumber.PhoneNumber)
  (st : @State Net) :
  libphonenumber.Parse to2 "US" = inl num2 ->
  requests (trace (snd (SendMessage to2 body2
                          (snd (SendMessage to1 body1 st)))))
  = (requests (trace (snd (SendMessage to1 body1 st)))
     ++ [request_for (receiver st) num2 body2])%list.
Proof.
  intros H. rewrite (SendMessage_run _ _ num2) by exact H.
  rewrite !SendMessage_receiver.
  destruct (HTTPClient _ _ _) as [[resp|err] n]; cbn [snd add_events trace];
    rewrite requests_app; reflexivity.
Qed.

Lemma SendMessage_reuse_witness :
  requests (trace (snd (SendMessage (phone := ten_digits) "555-123-4567" "two"
                          (snd (SendMessage (phone := ten_digits) "abc" "one"
                                  (start (example_client "not json")))))))
  = [request_for (example_client "not json") "5551234567" "two"].
Proof.
  apply (SendMessage_reuse (phone := ten_digits) "abc" "one"
           "555-123-4567" "two" "5551234567"
           (start (example_client "not json"))).
  reflexivity.
Defined.

(** X11. A client made by [NewCustomClient client api secret] sends its
    requests through [client], once per call, with [api] and [secret] in
    the two key headers: the network after the call is what [client] made
    of it for that request. *)
Theorem NewCustomClient_SendMessage {phone : libphonenumber.Lib} {Net : Type}
  (client : @Transport Net) (api secret to body : string)
  (num : libphonenumber.PhoneNumber) (st : @State Net) :
  receiver st = NewCustomClient client api secret ->
  libphonenumber.Parse to "US" = inl num ->
  exists req,
    requests (trace (snd (SendMessage to body st)))
    = (requests (trace st) ++ [req])%list
    /\ net (snd (SendMessage to body st)) = snd (client req (net st))
    /\ http.Header_Get (http.Headers req) "sb-api-key-id" = api
    /\ http.Header_Get (http.Headers req) "sb-api-secret-key" = secret.
Proof.
  intros C H. exists (request_for (receiver st) num body).
  rewrite (SendMessage_run _ _ num) by exact H. rewrite C.
  cbn [NewCustomClient HTTPClient APIKey SecretKey].
  destruct (client _ (net st)) as [[resp|err] n] eqn:E;
    cbn [snd add_events trace net]; rewrite requests_app;
    repeat split.
Qed.

Lemma NewCustomClient_SendMessage_witness :
  exists req,
    requests (trace (snd (SendMessage (phone := ten_digits) "555-123-4567" "hi"
                            (start (NewCustomClient (answering "{}")
                                      "key" "secret")))))
    = [req]
    /\ net (snd (SendMessage (phone := ten_digits) "555-123-4567" "hi"
                   (start (NewCustomClient (answering "{}") "key" "secret"))))
       = snd (answering "{}" req O)
    /\ http.Header_Get (http.Headers req) "sb-api-key-id" = "key"
    /\ http.Header_Get (http.Headers req) "sb-api-secret-key" = "secret".
Proof.
  apply (NewCustomClient_SendMessage (phone := ten_digits)
           (answering "{}") "key" "secret" "555-123-4567" "hi" "5551234567"
           (start (NewCustomClient (answering "{}") "key" "secret")));
    reflexivity.
Defined.

(** ** [ReadWebhook] *)

(** X12. [ReadWebhook] touches neither the network nor the client: it
    hands the transport no request and leaves the network and the
    receiver as they were, on every path. *)
Theorem ReadWebhook_no_network {Net : Type} (r : ReadCloser)
  (st : @State Net) :
  requests (trace (snd (ReadWebhook r st))) = requests (trace st)
  /\ net (snd (ReadWebhook r st)) = net st
  /\ receiver (snd (ReadWebhook r st)) = receiver st.
Proof.
  destruct (rc_err r) as [e|] eqn:E.
  - rewrite (ReadWebhook_unread r e) by exact E.
    cbn [snd add_events trace net receiver]. rewrite requests_app.
    cbn. rewrite app_nil_r. repeat split.
  - rewrite ReadWebhook_read by exact E.
    cbn [snd add_events trace net receiver]. rewrite requests_app.
    cbn. rewrite app_nil_r. repeat split.
Qed.



(** X14. When the stream is read to the end, [ReadWebhook] reads it once
    and then closes it once, and does nothing else, whether the decoding
    succeeds or fails. *)
Theorem ReadWebhook_reads_then_closes {Net : Type} (r : ReadCloser)
  (st : @State Net) :
  rc_err r = None ->
  trace (snd (ReadWebhook r st)) = (trace st ++ [EvReadAll r; EvClose r])%list.
Proof.
  intros R. rewrite ReadWebhook_read by exact R. reflexivity.
Qed.

Lemma ReadWebhook_reads_then_closes_witness :
  trace (snd (ReadWebhook (stream_of "not json") (start (example_client "{}"))))
  = [EvReadAll (stream_of "not json"); EvClose (stream_of "not json")].
Proof.
  apply (ReadWebhook_reads_then_closes (stream_of "not json")
           (start (example_client "{}"))).
  reflexivity.
Defined.

(** X15. [ReadWebhook] returns a message or an error, never both and
    never neither. *)
Theorem ReadWebhook_message_xor_error {Net : Type} (r : ReadCloser)
  (st : @State Net) :
  (exists msg, fst (ReadWebhook r st) = (Some msg, None))
  \/ (exists e, fst (ReadWebhook r st) = (None, Some e)).
Proof.
  destruct (rc_err r) as [e|] eqn:E.
  - rewrite (ReadWebhook_unread r e) by exact E. right. eexists. reflexivity.
  - rewrite ReadWebhook_read by exact E. cbn [fst].
    destruct (json.Unmarshal _ _) as [m [e|]].
    + right. eexists. reflexivity.
    + left. eexists. reflexivity.
Qed.

(** X16. Members may be missing and members may be unknown: when the
    stream is read to the end and holds [null], or an object none of
    whose keys names [number] or [content] (the empty object among them),
    [ReadWebhook] returns the message with both fields empty, and no
    error. *)
Theorem ReadWebhook_absent_fields {Net : Type} (r : ReadCloser)
  (v : json.value) (st : @State Net) :
  rc_err r = None ->
  json.parse (rc_data r) = Some v ->
  (v = json.Null
   \/ exists ms, v = json.Object ms
      /\ forall k x, In (k, x) ms ->
         json.find_field (json.field_names (T := Message)) k = None) ->
  fst (ReadWebhook r st)
  = (Some {| Number := EmptyString; Content := EmptyString |}, None).
Proof.
  intros R P A. rewrite ReadWebhook_read by exact R. cbn [fst].
  unfold json.Unmarshal. rewrite P.
  destruct A as [->|(ms & -> & U)]; [reflexivity|].
  rewrite (fold_store_unknown ms _ U). reflexivity.
Qed.

Lemma ReadWebhook_absent_fields_witness :
  fst (ReadWebhook (stream_of (q "{'status':'OK','from':[1,2]}"))
         (start (example_client "{}")))
  = (Some {| Number := EmptyString; Content := EmptyString |}, None).
Proof.
  apply (ReadWebhook_absent_fields
           (stream_of (q "{'status':'OK','from':[1,2]}"))
           (json.Object [("status", json.Str "OK");
                         ("from", json.Array [json.Number "1";
                                              json.Number "2"])])
           (start (example_client "{}"))).
  - reflexivity.
  - reflexivity.
  - right. eexists. split; [reflexivity|].
    intros k x [E|[E|[]]]; injection E as <- _; reflexivity.
Defined.

(** X17. The number of a webhook is not validated: on a stream that
    holds what [json.Marshal] writes for a message, [ReadWebhook] returns
    that message for any number and content, a number that is no phone
    number included; only ill-formed UTF-8 bytes are replaced, by
    U+FFFD. *)
Theorem ReadWebhook_returns_what_was_marshalled {Net : Type} (m : Message)
  (id : nat) (st : @State Net) :
  fst (ReadWebhook {| rc_id := id; rc_data := fst (json.Marshal m);
                      rc_err := None |} st)
  = (Some {| Number := coerce (Number m); Content := coerce (Content m) |},
     None).
Proof.
  rewrite ReadWebhook_read by reflexivity.
  cbn [fst rc_data]. rewrite Unmarshal_Marshal_Message. reflexivity.
Qed.
